(** * Levelup: lesson navigation and the exercise tracker of the Solidity IDE

    A shallow embedding of the two pieces of logic of the levelup web site
    that carry behaviour:

    - [LessonNavigation] (the pagination it computes from the fetched lesson
      list and the current lesson id), and
    - [IdeComponent] (the content lookup of [useMemo], [submissionHandler],
      [handleSolutionButtonClick] and the [useEffect] that opens the
      completion dialog).

    Beside them: what [LessonNavigation] renders at the two ends of its bar,
    which events the view rendered by [IdeComponent] offers, and the filter
    and loading state of [Protocols].

    Conventions of the embedding.

    - JavaScript numbers that the code uses as counters and positions are
      integers; they are modelled as [Z] (doubles are exact on integers up to
      2^53, and [-0] is identified with [0]).  The one place where a number may
      be [NaN], the result of [parseInt], has the type [number].
    - Strings are [string]; every character stands for one code unit.
    - A property read on [undefined] throws a [TypeError]; code that can throw
      lives in the [Result] monad.
    - Objects used as look-up tables are finite maps ([gmap]) of their own
      entries, read with the properties that plain objects inherit from
      [Object.prototype].
    - React state: a handler reads the values captured by the render that
      created it (the snapshot) and queues updates with the setters; one
      event is handled per render. *)

From Stdlib Require Import ZArith Ascii String List Bool Lia.
From Stdlib Require DecimalString DecimalNat.
From Stdlib Require Import Sorted.
From stdpp Require Import base option list strings gmap.

Local Open Scope string_scope.
Local Open Scope Z_scope.

(* ===================================================================== *)
(** ** JavaScript values and exceptions *)
(* ===================================================================== *)

Inductive Exn : Type :=
| TypeError.

Inductive Result (A : Type) : Type :=
| Ok (a : A)
| Throw (e : Exn).

Arguments Ok {A} a.
Arguments Throw {A} e.

Definition rbind {A B : Type} (r : Result A) (k : A -> Result B) : Result B :=
  match r with
  | Ok a => k a
  | Throw e => Throw e
  end.

Declare Scope result_scope.
Delimit Scope result_scope with result.
Notation "'try' x <- r ; k" := (rbind r (fun x => k))
  (at level 10, x name, r at level 100, k at level 200) : result_scope.

(** The result of [parseInt]. *)
Inductive number : Type :=
| NaN
| Num (z : Z).

(** [a > b] on numbers: every comparison with [NaN] is false. *)
Definition number_gt (a : number) (b : Z) : bool :=
  match a with
  | NaN => false
  | Num z => z >? b
  end.

(* ===================================================================== *)
(** ** LessonNavigation *)
(* ===================================================================== *)

(** One record of [markdownData.json]. *)
Record Lesson : Type := mkLesson {
  id : string;
  index : Z;
  name : string
}.

(** What a variable holding a lesson can contain: [null], [undefined] (an
    array read outside the array) or a lesson. *)
Inductive LessonRef : Type :=
| Null
| Undefined
| Entry (l : Lesson).

Record Pagination : Type := mkPagination {
  prevLesson : LessonRef;
  nextLesson : LessonRef
}.

(** [data.find((lesson) => lesson.id === lessonId)]: the first match, or
    [undefined] (here [None]). *)
Fixpoint array_find (p : Lesson -> bool) (data : list Lesson) : option Lesson :=
  match data with
  | [] => None
  | lesson :: rest => if p lesson then Some lesson else array_find p rest
  end.

(** [o.index] on what [find] returned: throws on [undefined]. *)
Definition get_index (o : option Lesson) : Result Z :=
  match o with
  | Some lesson => Ok (index lesson)
  | None => Throw TypeError
  end.

(** [data[i]] for an integer [i]: [undefined] outside the array. *)
Definition array_get (data : list Lesson) (i : Z) : LessonRef :=
  if i <? 0 then Undefined
  else match data !! Z.to_nat i with
       | Some lesson => Entry lesson
       | None => Undefined
       end.

(** The pagination computed by [LessonNavigation] from the fetched [data] and
    [props.lessonId] (lines 11 to 25 of the component). *)
Definition LessonNavigation (data : list Lesson) (lessonId : string)
  : Result Pagination :=
  (try found_index <- get_index (array_find (fun lesson => String.eqb (id lesson) lessonId) data);
   let currentLessonIndex := found_index - 1 in
   let prevLesson :=
     if currentLessonIndex >? 0
     then array_get data (currentLessonIndex - 1) else Null in
   let nextLesson :=
     if currentLessonIndex <? Z.of_nat (length data) - 1
     then array_get data (currentLessonIndex + 1) else Null in
   Ok {| prevLesson := prevLesson; nextLesson := nextLesson |})%result.

(** The resolver as the specification words it: the position of the current
    lesson is where the scan by identifier finds it, and the neighbours are
    the entries just before and just after that position. *)
Definition spec_position (data : list Lesson) (currentId : string)
  : option (nat * Lesson) :=
  list_find (fun lesson => id lesson = currentId) data.

Definition spec_neighbours (data : list Lesson) (pos : nat) : Pagination :=
  {| prevLesson :=
       match pos with
       | O => Null
       | S before => from_option Entry Null (data !! before)
       end;
     nextLesson := from_option Entry Null (data !! S pos) |}.

Definition spec_resolve (data : list Lesson) (currentId : string)
  : option Pagination :=
  match spec_position data currentId with
  | Some (pos, _) => Some (spec_neighbours data pos)
  | None => None
  end.

Definition lessons_abc : list Lesson :=
  [ mkLesson "a" 1 "A"; mkLesson "b" 2 "B"; mkLesson "c" 3 "C" ].

(* ===================================================================== *)
(** ** String helpers used by IdeComponent *)
(* ===================================================================== *)

Fixpoint string_drop (n : nat) (s : string) : string :=
  match n, s with
  | O, _ => s
  | S m, String _ rest => string_drop m rest
  | S _, EmptyString => EmptyString
  end.

(** The text that a string replacement stands for: [$$] is a dollar sign,
    [$&] the matched text, [$`] the text before the match and [$'] the text
    after it; a string pattern has no captures, so every other character,
    a dollar sign included, stands for itself. *)
Fixpoint expand_replacement (matched before after rep : string) : string :=
  match rep with
  | String "$" (String "$" rest) =>
      String "$" (expand_replacement matched before after rest)
  | String "$" (String "&" rest) =>
      matched ++ expand_replacement matched before after rest
  | String "$" (String "`" rest) =>
      before ++ expand_replacement matched before after rest
  | String "$" (String "'" rest) =>
      after ++ expand_replacement matched before after rest
  | String c rest => String c (expand_replacement matched before after rest)
  | EmptyString => EmptyString
  end.

Fixpoint has_dollar (rep : string) : bool :=
  match rep with
  | String c rest => Ascii.eqb c "$" || has_dollar rest
  | EmptyString => false
  end.

(** The scan of [replace]: [before] is the text already passed. *)
Fixpoint replace_from (pat rep before s : string) : string :=
  if String.prefix pat s
  then let after := string_drop (String.length pat) s in
       before ++ expand_replacement pat before after rep ++ after
  else match s with
       | EmptyString => before
       | String c rest => replace_from pat rep (before ++ String c "") rest
       end.

(** [s.replace(pat, rep)] for a string pattern and a string replacement: the
    first occurrence of [pat] in [s] is replaced by what [rep] stands for,
    and [s] is returned as it is when there is none. *)
Definition replace (pat rep s : string) : string :=
  replace_from pat rep "" s.

(** White space and line terminators among the code units below 256. *)
Definition is_white_space (c : ascii) : bool :=
  let n := nat_of_ascii c in
  ((9 <=? n)%nat && (n <=? 13)%nat) || (n =? 32)%nat || (n =? 160)%nat.

Fixpoint trim_start (s : string) : string :=
  match s with
  | String c rest => if is_white_space c then trim_start rest else s
  | EmptyString => s
  end.

(** The value of a code unit as a digit: [0-9], then [a-z] or [A-Z] for
    10 to 35. *)
Definition digit_value (c : ascii) : option Z :=
  let n := Z.of_nat (nat_of_ascii c) in
  if (48 <=? n) && (n <=? 57) then Some (n - 48)
  else if (97 <=? n) && (n <=? 122) then Some (n - 87)
  else if (65 <=? n) && (n <=? 90) then Some (n - 55)
  else None.

(** The integer written by the longest prefix of [s] made of digits of radix
    [R]; [acc] is what the digits read so far denote, [None] before the first
    digit. *)
Fixpoint parse_digits (R : Z) (s : string) (acc : option Z) : option Z :=
  match s with
  | String c rest =>
      match digit_value c with
      | Some d =>
          if d <? R
          then parse_digits R rest (Some (default 0 acc * R + d))
          else acc
      | None => acc
      end
  | EmptyString => acc
  end.

(** [parseInt(s)] without a radix: leading white space is skipped, a sign is
    read, [0x] or [0X] selects radix 16 (radix 10 otherwise), and the longest
    prefix of digits is the value; [NaN] when there is no digit.  The value
    is the integer that the digits write: it is what JavaScript returns while
    that integer is below 2^53 in magnitude; beyond, JavaScript returns the
    double next to it, which the embedding does not follow. *)
Definition parseInt (s : string) : number :=
  let S1 := trim_start s in
  let '(sign, S2) :=
    match S1 with
    | String "-" rest => (-1, rest)
    | String "+" rest => (1, rest)
    | _ => (1, S1)
    end in
  let '(R, S3) :=
    match S2 with
    | String "0" (String "x" rest) => (16, rest)
    | String "0" (String "X" rest) => (16, rest)
    | _ => (10, S2)
    end in
  match parse_digits R S3 None with
  | None => NaN
  | Some mathInt => Num (sign * mathInt)
  end.

(* ===================================================================== *)
(** ** IdeComponent: the content of the exercise *)
(* ===================================================================== *)

(** The two tables are plain objects: what a read finds is an own entry
    or, failing that, a property inherited from [Object.prototype].  These are
    the names with which every plain object answers. *)
Definition Object_prototype_names : list string :=
  [ "constructor"; "hasOwnProperty"; "isPrototypeOf"; "propertyIsEnumerable";
    "toLocaleString"; "toString"; "valueOf"; "__proto__";
    "__defineGetter__"; "__defineSetter__"; "__lookupGetter__";
    "__lookupSetter__" ].

Definition is_inherited (key : string) : bool :=
  bool_decide (key ∈ Object_prototype_names).

(** What [TABLE[lessonKey]] can be: [undefined], the object of a lesson, or
    the built-in object (a function, or the prototype itself) that the name
    inherits. *)
Inductive LessonEntry : Type :=
| NoLesson
| LessonObject (exercises : gmap string string)
| InheritedObject (property : string).

(** What [codeSolution] and [codeTemplate] can be: [undefined], a text, or
    whatever the engine holds at a path of property names below
    [Object.prototype]; the model does not look inside built-in objects, so
    the last stands for any value, [undefined] included. *)
Inductive JsValue : Type :=
| JUndefined
| JString (text : string)
| JBuiltin (path : list string).

Record ExerciseContent : Type := mkExerciseContent {
  codeSolution : JsValue;
  codeTemplate : JsValue
}.

(** [TABLE[lessonKey]] on a table with the own entries [table]. *)
Definition lesson_entry (table : gmap string (gmap string string))
           (lessonKey : string) : LessonEntry :=
  match table !! lessonKey with
  | Some exercises => LessonObject exercises
  | None => if is_inherited lessonKey then InheritedObject lessonKey else NoLesson
  end.

(** [entry[key]]: throws on [undefined]; the object of a lesson is a plain
    object too. *)
Definition member (entry : LessonEntry) (key : string) : Result JsValue :=
  match entry with
  | NoLesson => Throw TypeError
  | LessonObject exercises =>
      Ok match exercises !! key with
         | Some text => JString text
         | None => if is_inherited key then JBuiltin [key] else JUndefined
         end
  | InheritedObject property => Ok (JBuiltin [property; key])
  end.

(** An object is truthy, [undefined] is not. *)
Definition truthy (entry : LessonEntry) : bool :=
  match entry with
  | NoLesson => false
  | LessonObject _ | InheritedObject _ => true
  end.

Section Content.

(** The own entries of the tables of [@/constants/solidity/code-solutions]
    and [@/constants/solidity/code-exercises]: lesson key, then exercise
    name, to text. *)
Variables CODE_SOLUTIONS CODE_EXERCISES : gmap string (gmap string string).

(** The callback of [useMemo] (lines 28 to 36). *)
Definition exerciseContent (lessonKey exercise : string)
  : Result ExerciseContent :=
  if truthy (lesson_entry CODE_SOLUTIONS lessonKey)
     && truthy (lesson_entry CODE_EXERCISES lessonKey)
  then
    (try solution <- member (lesson_entry CODE_SOLUTIONS lessonKey) exercise;
     try template <- member (lesson_entry CODE_EXERCISES lessonKey) exercise;
     Ok {| codeSolution := solution; codeTemplate := template |})%result
  else Ok {| codeSolution := JString ""; codeTemplate := JString "" |}.

End Content.



(* ===================================================================== *)
(** ** IdeComponent: state, setters and handlers *)
(* ===================================================================== *)

(** One mounted [IdeComponent]: the [exercise] prop and the six state
    variables of [useState]. *)
Record View : Type := mkView {
  exercise : string;
  code : string;
  tries : Z;
  solutionViewer : bool;
  showSolutionButton : bool;
  completedExerciseNumber : Z;
  isModalOpen : bool
}.

(** What leaves the tracker: a call of the [onComplete] prop, and the opening
    of the completion dialog by [setIsModalOpen(true)]. *)
Inductive Signal : Type :=
| OnComplete (n : Z)
| LessonFinished.

Global Instance Signal_eq_dec : EqDecision Signal.
Proof. solve_decision. Defined.

(** Code that queues state updates and calls out. *)
Definition Act (A : Type) : Type := View -> A * View * list Signal.

Definition ret {A : Type} (a : A) : Act A := fun v => (a, v, []).

Definition bind {A B : Type} (m : Act A) (k : A -> Act B) : Act B :=
  fun v =>
    let '(a, v1, out1) := m v in
    let '(b, v2, out2) := k a v1 in
    (b, v2, (out1 ++ out2)%list).

Declare Scope act_scope.
Delimit Scope act_scope with act.
Notation "m ;; k" := (bind m (fun _ => k))
  (at level 100, right associativity) : act_scope.

Definition skip : Act unit := ret tt.

Definition onComplete (n : Z) : Act unit :=
  fun v => (tt, v, [OnComplete n]).

Definition setCode (s : string) : Act unit :=
  fun v => (tt, mkView (exercise v) s (tries v) (solutionViewer v)
                  (showSolutionButton v) (completedExerciseNumber v)
                  (isModalOpen v), []).

Definition setSolutionViewer (b : bool) : Act unit :=
  fun v => (tt, mkView (exercise v) (code v) (tries v) b
                  (showSolutionButton v) (completedExerciseNumber v)
                  (isModalOpen v), []).

(** [setTries(updater)]: the updater gets the queued value and may itself
    queue updates; [setTries(n)] is [setTries (fun _ => ret n)]. *)
Definition setTries (updater : Z -> Act Z) : Act unit :=
  fun v =>
    let '(n, v1, out) := updater (tries v) v in
    (tt, mkView (exercise v1) (code v1) n (solutionViewer v1)
           (showSolutionButton v1) (completedExerciseNumber v1)
           (isModalOpen v1), out).

Definition setShowSolutionButton (updater : bool -> bool) : Act unit :=
  fun v => (tt, mkView (exercise v) (code v) (tries v) (solutionViewer v)
                  (updater (showSolutionButton v)) (completedExerciseNumber v)
                  (isModalOpen v), []).

Definition setCompletedExerciseNumber (n : Z) : Act unit :=
  fun v => (tt, mkView (exercise v) (code v) (tries v) (solutionViewer v)
                  (showSolutionButton v) n (isModalOpen v), []).

Definition setIsModalOpen (b : bool) : Act unit :=
  fun v => (tt, mkView (exercise v) (code v) (tries v) (solutionViewer v)
                  (showSolutionButton v) (completedExerciseNumber v) b,
            if b then [LessonFinished] else []).

(** [submissionHandler] (lines 38 to 58).  [snap] holds the values the
    handler closes over.  The state variable [completedExerciseNumber] holds
    integers, so the assignment under the guard is written on the integer the
    guard has seen. *)
Definition submissionHandler (snap : View) (isCorrect : bool) : Act unit :=
  (if isCorrect then
     let currentExerciseNumber := parseInt (replace "exercise" "" (exercise snap)) in
     (if number_gt currentExerciseNumber (completedExerciseNumber snap)
      then match currentExerciseNumber with
           | Num n => onComplete n ;; setCompletedExerciseNumber n
           | NaN => skip
           end
      else skip) ;;
     setSolutionViewer false ;;
     setTries (fun _ => ret 0)
   else
     setTries (fun _ =>
       let newTries := tries snap + 1 in
       (if newTries >? 2 then setSolutionViewer true else skip) ;;
       ret newTries))%act.

(** [handleSolutionButtonClick] (lines 60 to 64). *)
Definition handleSolutionButtonClick (reveal : bool) : Act unit :=
  (setShowSolutionButton negb ;;
   setSolutionViewer reveal ;;
   setTries (fun _ => ret 0))%act.

(** The body of the effect (lines 66 to 70). *)
Definition completedEffect (snap : View) : Act unit :=
  if completedExerciseNumber snap =? 5 then setIsModalOpen true else skip.

(** [useEffect(body, [completedExerciseNumber])]: the body runs after the
    first render ([previous = None]) and after every render in which the
    dependency differs from its value at the render before. *)
Definition useEffect (previous : option Z) : Act unit :=
  fun v =>
    match previous with
    | None => completedEffect v v
    | Some dep =>
        if dep =? completedExerciseNumber v then skip v else completedEffect v v
    end.

(** The values of [useState] at the first render; the [exercise] prop
    defaults to ["exercise1"]. *)
Definition initial (exerciseProp : option string) : View :=
  {| exercise := default "exercise1" exerciseProp;
     code := "";
     tries := 0;
     solutionViewer := false;
     showSolutionButton := false;
     completedExerciseNumber := 0;
     isModalOpen := false |}.

(** What can happen to a mounted component. *)
Inductive Event : Type :=
| Submit (isCorrect : bool)              (* onSubmission of the editor or of the submit button *)
| SolutionButtonClick (reveal : bool)    (* the Answers and Code buttons *)
| EditorChange (newCode : option string) (* onChange of the editor *)
| ModalClose                             (* isClose of the dialog *)
| NewProps (exerciseProp : option string). (* the parent renders it with another prop *)

Definition setExercise (s : string) : Act unit :=
  fun v => (tt, mkView s (code v) (tries v) (solutionViewer v)
                  (showSolutionButton v) (completedExerciseNumber v)
                  (isModalOpen v), []).

Definition handle (snap : View) (ev : Event) : Act unit :=
  match ev with
  | Submit isCorrect => submissionHandler snap isCorrect
  | SolutionButtonClick reveal => handleSolutionButtonClick reveal
  | EditorChange newCode => setCode (default "" newCode)
  | ModalClose => setIsModalOpen false
  | NewProps exerciseProp => setExercise (default "exercise1" exerciseProp)
  end.

(** Mounting: the first render, then the effect. *)
Definition mount (exerciseProp : option string) : View * list Signal :=
  let '(_, v, out) := useEffect None (initial exerciseProp) in (v, out).

(** One event: its handler on the current values, the render, the effect. *)
Definition step (ev : Event) (v : View) : View * list Signal :=
  let '(_, v', out) :=
    (handle v ev ;; useEffect (Some (completedExerciseNumber v)))%act v in
  (v', out).

(** The operations of the tracker as the specification names them. *)
Definition submit (isCorrect : bool) (v : View) : View * list Signal :=
  step (Submit isCorrect) v.

Definition toggleReveal (reveal : bool) (v : View) : View * list Signal :=
  step (SolutionButtonClick reveal) v.

(** A session: for every event in turn, the state before it, the state after
    it and what it signalled. *)
Record StepRecord : Type := mkStepRecord {
  before : View;
  after : View;
  signals : list Signal
}.

Fixpoint run (evs : list Event) (v : View) : list StepRecord :=
  match evs with
  | [] => []
  | ev :: rest =>
      let '(v', out) := step ev v in
      mkStepRecord v v' out :: run rest v'
  end.

Definition final (evs : list Event) (v : View) : View :=
  fold_left (fun st ev => fst (step ev st)) evs v.

(** How often the dialog is opened in a list of signals. *)
Definition firings (out : list Signal) : nat :=
  length (filter (fun s => s = LessonFinished) out).

Definition total_firings (records : list StepRecord) : nat :=
  firings (concat (map signals records)).

(** The session of a component mounted with [exerciseProp]. *)
Definition session (exerciseProp : option string) (evs : list Event)
  : list StepRecord :=
  run evs (fst (mount exerciseProp)).

(** A session on exercise 5: a miss, the solution, the dialog closed, the
    solution again. *)
Definition sample_events : list Event :=
  [Submit false; Submit true; ModalClose; Submit true].

(** The step takes the completion counter to 5 from another value. *)
Definition reaches_five (r : StepRecord) : bool :=
  negb (completedExerciseNumber (before r) =? 5)
  && (completedExerciseNumber (after r) =? 5).

Definition notifications (out : list Signal) : list Z :=
  omap (fun s => match s with OnComplete n => Some n | LessonFinished => None end) out.

(** The exercise number that [submissionHandler] reads off the prop. *)
Definition exerciseNumber (v : View) : number :=
  parseInt (replace "exercise" "" (exercise v)).

(** The state after a correct submission that does not advance the counter
    ([cleared]), after one that advances it to [n] ([advanced]), and after an
    incorrect one ([missed]); [submit] is proved to produce them below. *)
Definition cleared (v : View) : View :=
  mkView (exercise v) (code v) 0 false (showSolutionButton v)
         (completedExerciseNumber v) (isModalOpen v).

Definition advanced (n : Z) (v : View) : View :=
  mkView (exercise v) (code v) 0 false (showSolutionButton v) n
         (if n =? 5 then true else isModalOpen v).

Definition missed (v : View) : View :=
  mkView (exercise v) (code v) (tries v + 1)
         (if tries v + 1 >? 2 then true else solutionViewer v)
         (showSolutionButton v) (completedExerciseNumber v) (isModalOpen v).

(* ===================================================================== *)
(** ** LessonNavigation: what is rendered *)
(* ===================================================================== *)

(** The two ends of the navigation bar (lines 36 to 57): a link to a lesson,
    the back link, or the text that closes the list. *)
Inductive NavItem : Type :=
| LinkTo (href text : string)
| BackLink
| EndOfChallenges.

(** [pagination.prevLesson ? <Link .../> : <BackLink/>]: a lesson is truthy,
    [null] and [undefined] are not. *)
Definition render_prev (r : LessonRef) : NavItem :=
  match r with
  | Entry lesson =>
      LinkTo ("/solidity/" ++ id lesson) ("Prev lesson: " ++ name lesson)
  | Null | Undefined => BackLink
  end.

Definition render_next (r : LessonRef) : NavItem :=
  match r with
  | Entry lesson =>
      LinkTo ("/solidity/" ++ id lesson) ("Next lesson: " ++ name lesson)
  | Null | Undefined => EndOfChallenges
  end.

(** The component from the fetched data to the two ends it renders. *)
Definition LessonNavigation_render (data : list Lesson) (lessonId : string)
  : Result (NavItem * NavItem) :=
  (try pagination <- LessonNavigation data lessonId;
   Ok (render_prev (prevLesson pagination),
       render_next (nextLesson pagination)))%result.

(** Data in which every lesson carries its one-based position in [index]. *)
Definition well_indexed (data : list Lesson) : Prop :=
  map index data = map (fun i => Z.of_nat i + 1) (seq 0 (length data)).

(* ===================================================================== *)
(** ** IdeComponent: what the rendered view offers *)
(* ===================================================================== *)

(** The name of the [n]-th exercise as the lessons write it. *)
Definition exerciseName (n : nat) : string :=
  "exercise" ++ DecimalString.NilEmpty.string_of_uint (Nat.to_uint n).

(** Which events the rendered view can raise (lines 72 to 154).  With
    [showSolutionButton] the diff editor and the Code button are rendered;
    without it the code editor, the submit button and the Answers button,
    which is disabled unless [solutionViewer].  The dialog and the parent are
    not constrained. *)
Definition offers (v : View) (ev : Event) : bool :=
  match ev with
  | Submit _ => negb (showSolutionButton v)
  | SolutionButtonClick true => negb (showSolutionButton v) && solutionViewer v
  | SolutionButtonClick false => showSolutionButton v
  | EditorChange _ => negb (showSolutionButton v)
  | ModalClose => true
  | NewProps _ => true
  end.

(** Every event of the sequence is offered by the view it arrives at. *)
Fixpoint feasible (evs : list Event) (v : View) : bool :=
  match evs with
  | [] => true
  | ev :: rest => offers v ev && feasible rest (fst (step ev v))
  end.

Definition is_NewProps (ev : Event) : bool :=
  match ev with
  | NewProps _ => true
  | _ => false
  end.

(** Everything a run signalled, in order. *)
Definition all_signals (records : list StepRecord) : list Signal :=
  concat (map signals records).

(* ===================================================================== *)
(** ** Protocols *)
(* ===================================================================== *)

Module Protocols.

Section Component.

(** The type of a challenge level and of a fetched item, and
    [CHALLENGE_LEVEL_LIST[0]] of [@/constants]. *)
Variables (Level Item : Type) (first_level : Level).

Record SearchParams : Type := mkSearchParams {
  category : string;
  network : Level
}.

(** The state variables of the component that change. *)
Record State : Type := mkState {
  searchParams : SearchParams;
  data : list Item;
  isLoading : bool
}.

Definition initial : State :=
  {| searchParams := {| category := "All categories"; network := first_level |};
     data := [];
     isLoading := true |}.

(** [setSearchParams((pre) => ({...pre, category: value}))]. *)
Definition handleChangeCategory (value : string) (st : State) : State :=
  let pre := searchParams st in
  mkState (mkSearchParams value (network pre)) (data st) (isLoading st).

(** [setSearchParams((pre) => ({...pre, network: value}))]. *)
Definition handleChangeNetwork (value : Level) (st : State) : State :=
  let pre := searchParams st in
  mkState (mkSearchParams (category pre) value) (data st) (isLoading st).

(** The continuation of the fetch of the effect: [setData(data)] and
    [setLoading(false)]. *)
Definition fetchResolved (fetched : list Item) (st : State) : State :=
  mkState (searchParams st) fetched false.

Inductive Event : Type :=
| ChangeCategory (value : string)
| ChangeNetwork (value : Level)
| FetchResolved (fetched : list Item).

Definition step (st : State) (ev : Event) : State :=
  match ev with
  | ChangeCategory value => handleChangeCategory value st
  | ChangeNetwork value => handleChangeNetwork value st
  | FetchResolved fetched => fetchResolved fetched st
  end.

Definition final (evs : list Event) : State := fold_left step evs initial.

Definition category_writes (evs : list Event) : list string :=
  omap (fun ev => match ev with ChangeCategory value => Some value | _ => None end) evs.

Definition network_writes (evs : list Event) : list Level :=
  omap (fun ev => match ev with ChangeNetwork value => Some value | _ => None end) evs.

Definition fetches (evs : list Event) : list (list Item) :=
  omap (fun ev => match ev with FetchResolved fetched => Some fetched | _ => None end) evs.

End Component.

End Protocols.

(* ===================================================================== *)
(** * The embedding on concrete inputs *)
(* ===================================================================== *)

Example parseInt_digits : parseInt "5" = Num 5.
Proof. reflexivity. Qed.

Example parseInt_prefix_of_digits : parseInt "  -12px" = Num (-12).
Proof. reflexivity. Qed.

Example parseInt_hexadecimal : parseInt "0x1F" = Num 31.
Proof. reflexivity. Qed.

Example parseInt_no_digit : parseInt "" = NaN /\ parseInt "five" = NaN.
Proof. split; reflexivity. Qed.

Example replace_first_occurrence :
  replace "exercise" "" "exercise4" = "4"
  /\ replace "exercise" "" "my-exercise7-exercise" = "my-7-exercise"
  /\ replace "exercise" "" "intro" = "intro".
Proof. repeat split; reflexivity. Qed.

Example replace_dollar_patterns :
  replace "exercise" "$&" "exercise4" = "exercise4"
  /\ replace "exercise" "$$" "exercise4" = "$4"
  /\ replace "b" "[$`|$'|$1]" "abc" = "a[a|c|$1]c".
Proof. repeat split; reflexivity. Qed.

Example exerciseNumber_default : exerciseNumber (initial None) = Num 1.
Proof. reflexivity. Qed.

Example sample_session_signals :
  map signals (session (Some "exercise5") sample_events)
  = [ []; [OnComplete 5; LessonFinished]; []; [] ].
Proof. reflexivity. Qed.

Example sample_session_dialog :
  map (fun r => isModalOpen (after r)) (session (Some "exercise5") sample_events)
  = [false; true; false; false].
Proof. reflexivity. Qed.

Example out_of_range_index :
  LessonNavigation [mkLesson "a" 7 "A"; mkLesson "b" 2 "B"] "a"
  = Ok (mkPagination Undefined Null).
Proof. reflexivity. Qed.

(* ===================================================================== *)
(** * Properties of LessonNavigation *)
(* ===================================================================== *)

Section NavigationFacts.

Implicit Types (data : list Lesson) (lessonId : string).

(** [find] with the identifier test returns the element of the scan. *)
Lemma array_find_scan data lessonId :
  array_find (fun lesson => String.eqb (id lesson) lessonId) data
  = snd <$> spec_position data lessonId.
Proof.
  unfold spec_position.
  induction data as [|lesson rest IH]; [reflexivity|].
  cbn. destruct (String.eqb_spec (id lesson) lessonId) as [Heq|Hne].
  - rewrite decide_True by exact Heq. reflexivity.
  - rewrite decide_False by exact Hne. rewrite IH.
    destruct (list_find _ rest) as [[pos found]|]; reflexivity.
Qed.

Lemma array_find_none data lessonId :
  (forall lesson, lesson ∈ data -> id lesson <> lessonId) ->
  array_find (fun lesson => String.eqb (id lesson) lessonId) data = None.
Proof.
  induction data as [|lesson rest IH]; intros Hno; [reflexivity|].
  cbn. destruct (String.eqb_spec (id lesson) lessonId) as [Heq|Hne].
  - exfalso. apply (Hno lesson); [left | exact Heq].
  - apply IH. intros other Hin. apply Hno. right. exact Hin.
Qed.

Lemma array_get_inside data (pos : nat) lesson :
  data !! pos = Some lesson -> array_get data (Z.of_nat pos) = Entry lesson.
Proof.
  intros Hat. unfold array_get.
  destruct (Z.ltb_spec (Z.of_nat pos) 0) as [Hneg|_]; [lia|].
  rewrite Nat2Z.id, Hat. reflexivity.
Qed.

End NavigationFacts.

(** C1, as the claim is worded, fails: the component takes the position of
    the current lesson from the [index] field of the lesson that [find]
    returns, not from the place where the scan found it.  In the list
    [{id:"a",index:2}, {id:"b",index:1}] the lesson ["a"] is first, yet the
    component answers [prevLesson = a] and [nextLesson = null] where the
    neighbours in the list are [null] and [b]. *)
Lemma LessonNavigation_position_counterexample :
  ~ (forall (data : list Lesson) (currentId : string) (expected : Pagination),
        (exists lesson, lesson ∈ data /\ id lesson = currentId) ->
        spec_resolve data currentId = Some expected ->
        LessonNavigation data currentId = Ok expected).
Proof.
  intros Hclaim.
  pose (a := mkLesson "a" 2 "A"). pose (b := mkLesson "b" 1 "B").
  specialize (Hclaim [a; b] "a" (mkPagination Null (Entry b))).
  assert (Hcode : LessonNavigation [a; b] "a" = Ok (mkPagination (Entry a) Null))
    by reflexivity.
  rewrite Hcode in Hclaim.
  assert (Hbad : Ok (mkPagination (Entry a) Null) = Ok (mkPagination Null (Entry b))).
  { apply Hclaim; [exists a; split; [left | reflexivity] | reflexivity]. }
  discriminate Hbad.
Qed.

(** C1 (amended): when the lesson that the scan by identifier finds carries
    in [index] its one-based position in the list, [LessonNavigation] returns
    the entries just before and just after it, [null] for [prevLesson] when
    it is first and [null] for [nextLesson] when it is last; for the list
    a, b, c with indices 1, 2, 3 the id b yields a and c, the id a yields
    [null] and b, the id c yields b and [null]. *)
Theorem LessonNavigation_neighbours :
  (forall (data : list Lesson) (currentId : string) (pos : nat) (lesson : Lesson),
      spec_position data currentId = Some (pos, lesson) ->
      index lesson = Z.of_nat pos + 1 ->
      LessonNavigation data currentId = Ok (spec_neighbours data pos)
      /\ (pos = 0%nat -> prevLesson (spec_neighbours data pos) = Null)
      /\ (S pos = length data -> nextLesson (spec_neighbours data pos) = Null))
  /\ LessonNavigation lessons_abc "b"
     = Ok (mkPagination (Entry (mkLesson "a" 1 "A")) (Entry (mkLesson "c" 3 "C")))
  /\ LessonNavigation lessons_abc "a"
     = Ok (mkPagination Null (Entry (mkLesson "b" 2 "B")))
  /\ LessonNavigation lessons_abc "c"
     = Ok (mkPagination (Entry (mkLesson "b" 2 "B")) Null).
Proof.
  split; [|repeat split; reflexivity].
  intros data currentId pos lesson Hpos Hindex.
  assert (Hat : data !! pos = Some lesson).
  { unfold spec_position in Hpos. apply list_find_Some in Hpos. tauto. }
  pose proof (lookup_lt_Some _ _ _ Hat) as Hlt.
  split; [|split].
  - unfold LessonNavigation. rewrite array_find_scan, Hpos. cbn.
    rewrite Hindex. unfold spec_neighbours. f_equal.
    replace (Z.of_nat pos + 1 - 1) with (Z.of_nat pos) by lia.
    f_equal.
    + destruct pos as [|prior]; [reflexivity|].
      destruct (Z.gtb_spec (Z.of_nat (S prior)) 0) as [_|Hle]; [|lia].
      replace (Z.of_nat (S prior) - 1) with (Z.of_nat prior) by lia.
      destruct (lookup_lt_is_Some_2 data prior ltac:(lia)) as [p Hp].
      rewrite (array_get_inside _ _ _ Hp), Hp. reflexivity.
    + destruct (Z.ltb_spec (Z.of_nat pos) (Z.of_nat (length data) - 1)) as [Hin|Hout].
      * destruct (lookup_lt_is_Some_2 data (S pos) ltac:(lia)) as [n Hn].
        replace (Z.of_nat pos + 1) with (Z.of_nat (S pos)) by lia.
        rewrite (array_get_inside _ _ _ Hn), Hn. reflexivity.
      * rewrite (lookup_ge_None_2 data (S pos)) by lia. reflexivity.
  - intros ->. reflexivity.
  - intros Hlast. cbn. rewrite (lookup_ge_None_2 data (S pos)) by lia. reflexivity.
Qed.

Lemma LessonNavigation_neighbours_witness :
  spec_position lessons_abc "b" = Some (1%nat, mkLesson "b" 2 "B")
  /\ index (mkLesson "b" 2 "B") = Z.of_nat 1 + 1
  /\ LessonNavigation lessons_abc "b" = Ok (spec_neighbours lessons_abc 1).
Proof.
  split; [reflexivity | split; [reflexivity|]].
  apply (proj1 LessonNavigation_neighbours lessons_abc "b" 1%nat (mkLesson "b" 2 "B"));
    reflexivity.
Defined.

(** C6: when no lesson of the list has the identifier, [LessonNavigation]
    fails with the [TypeError] of the property read on [undefined]; it
    returns no pagination. *)
Theorem LessonNavigation_missing_throws :
  forall (data : list Lesson) (currentId : string),
    (forall lesson, lesson ∈ data -> id lesson <> currentId) ->
    LessonNavigation data currentId = Throw TypeError.
Proof.
  intros data currentId Hno. unfold LessonNavigation.
  rewrite (array_find_none _ _ Hno). reflexivity.
Qed.

Lemma LessonNavigation_missing_throws_witness :
  (forall lesson, lesson ∈ lessons_abc -> id lesson <> "d")
  /\ LessonNavigation lessons_abc "d" = Throw TypeError.
Proof.
  assert (Hno : forall lesson, lesson ∈ lessons_abc -> id lesson <> "d").
  { intros lesson Hin Heq. unfold lessons_abc in Hin.
    repeat (apply elem_of_cons in Hin; destruct Hin as [-> | Hin]; [discriminate Heq|]).
    apply elem_of_nil in Hin. exact Hin. }
  split; [exact Hno | apply LessonNavigation_missing_throws; exact Hno].
Defined.

(* ===================================================================== *)
(** * Properties of the content look-up *)
(* ===================================================================== *)

Section ContentFacts.

Variables CODE_SOLUTIONS CODE_EXERCISES : gmap string (gmap string string).


Lemma lesson_entry_missing (table : gmap string (gmap string string))
      (lessonKey : string) :
  table !! lessonKey = None -> is_inherited lessonKey = false ->
  lesson_entry table lessonKey = NoLesson.
Proof. unfold lesson_entry. intros -> ->. reflexivity. Qed.


(** The guard protects both property reads: the look-up never throws. *)
Lemma exerciseContent_total (lessonKey exerciseName : string) :
  exists content,
    exerciseContent CODE_SOLUTIONS CODE_EXERCISES lessonKey exerciseName = Ok content.
Proof.
  unfold exerciseContent.
  destruct (lesson_entry CODE_SOLUTIONS lessonKey),
           (lesson_entry CODE_EXERCISES lessonKey);
    cbn; eexists; reflexivity.
Qed.

(** A lesson that neither table knows under a name that no object
    inherits falls back to the empty strings. *)
Lemma exerciseContent_fallback (lessonKey exerciseName : string) :
  is_inherited lessonKey = false ->
  CODE_SOLUTIONS !! lessonKey = None \/ CODE_EXERCISES !! lessonKey = None ->
  exerciseContent CODE_SOLUTIONS CODE_EXERCISES lessonKey exerciseName
  = Ok {| codeSolution := JString ""; codeTemplate := JString "" |}.
Proof.
  unfold exerciseContent. intros Hplain [Hmiss | Hmiss];
    rewrite (lesson_entry_missing _ _ Hmiss Hplain).
  - reflexivity.
  - rewrite andb_false_r. reflexivity.
Qed.


End ContentFacts.


(* ===================================================================== *)
(** * Properties of the exercise tracker *)
(* ===================================================================== *)

Section TrackerFacts.

Implicit Types (v : View) (ev : Event) (n : Z).

Lemma submit_incorrect v : submit false v = (missed v, []).
Proof.
  unfold submit, step, missed. cbn.
  destruct (tries v + 1 >? 2); cbn; rewrite Z.eqb_refl; reflexivity.
Qed.

Lemma submit_correct_advance v n :
  exerciseNumber v = Num n -> completedExerciseNumber v < n ->
  submit true v
  = (advanced n v, OnComplete n :: if n =? 5 then [LessonFinished] else []).
Proof.
  unfold exerciseNumber. intros Hnum Hlt.
  unfold submit, step, advanced. cbn. rewrite Hnum. cbn.
  destruct (Z.gtb_spec n (completedExerciseNumber v)) as [_|Hle]; [|lia].
  cbn. destruct (Z.eqb_spec (completedExerciseNumber v) n) as [Heq|_]; [lia|].
  unfold completedEffect. cbn. destruct (n =? 5); reflexivity.
Qed.

Lemma submit_correct_stay v :
  number_gt (exerciseNumber v) (completedExerciseNumber v) = false ->
  submit true v = (cleared v, []).
Proof.
  unfold exerciseNumber. intros Hle.
  unfold submit, step, cleared. cbn. rewrite Hle. cbn.
  rewrite Z.eqb_refl. reflexivity.
Qed.

(** Every correct submission is one of the two cases. *)
Lemma submit_correct_cases v :
  (exists n, exerciseNumber v = Num n /\ completedExerciseNumber v < n
             /\ submit true v
                = (advanced n v,
                   OnComplete n :: if n =? 5 then [LessonFinished] else []))
  \/ (number_gt (exerciseNumber v) (completedExerciseNumber v) = false
      /\ submit true v = (cleared v, [])).
Proof.
  destruct (number_gt (exerciseNumber v) (completedExerciseNumber v)) eqn:Hgt.
  - left. destruct (exerciseNumber v) as [|n] eqn:Hnum; [discriminate Hgt|].
    cbn in Hgt. exists n. apply Z.gtb_lt in Hgt.
    split; [reflexivity | split; [lia|]].
    apply submit_correct_advance; [exact Hnum | lia].
  - right. split; [reflexivity | apply submit_correct_stay; exact Hgt].
Qed.

Lemma toggleReveal_eq v (reveal : bool) :
  toggleReveal reveal v
  = (mkView (exercise v) (code v) 0 reveal (negb (showSolutionButton v))
            (completedExerciseNumber v) (isModalOpen v), []).
Proof. unfold toggleReveal, step. cbn. rewrite Z.eqb_refl. reflexivity. Qed.

(** Events other than a submission leave the counter alone and signal
    nothing. *)
Lemma step_other ev v :
  (forall isCorrect, ev <> Submit isCorrect) ->
  completedExerciseNumber (fst (step ev v)) = completedExerciseNumber v
  /\ snd (step ev v) = [].
Proof.
  intros Hother. destruct ev as [isCorrect|reveal|newCode| |exerciseProp].
  - exfalso. apply (Hother isCorrect). reflexivity.
  - fold (toggleReveal reveal v). rewrite toggleReveal_eq. split; reflexivity.
  - unfold step. cbn. rewrite Z.eqb_refl. split; reflexivity.
  - unfold step. cbn. rewrite Z.eqb_refl. split; reflexivity.
  - unfold step. cbn. rewrite Z.eqb_refl. split; reflexivity.
Qed.


Lemma step_submit_cases (isCorrect : bool) v :
  step (Submit isCorrect) v = (missed v, [])
  \/ step (Submit isCorrect) v = (cleared v, [])
  \/ exists n, completedExerciseNumber v < n
               /\ isCorrect = true /\ exerciseNumber v = Num n
               /\ step (Submit isCorrect) v
                  = (advanced n v,
                     OnComplete n :: if n =? 5 then [LessonFinished] else []).
Proof.
  fold (submit isCorrect v). destruct isCorrect.
  - destruct (submit_correct_cases v) as [(n & Hnum & Hlt & Heq) | [_ Heq]].
    + right. right. exists n. repeat split; assumption.
    + right. left. exact Heq.
  - left. apply submit_incorrect.
Qed.

(** Settles the cases of an event that is not a submission. *)
Ltac other_event :=
  match goal with
  | |- context [step ?e ?v] =>
      let Hother := fresh "Hother" in
      assert (Hother : forall isCorrect, e <> Submit isCorrect)
        by (intros ?; discriminate);
      let Hcounter := fresh "Hcounter" in
      let Hout := fresh "Hout" in
      destruct (step_other e v Hother) as [Hcounter Hout];
      rewrite ?Hcounter, ?Hout
  end.

(** The counter never goes down. *)
Lemma step_completed_mono ev v :
  completedExerciseNumber v <= completedExerciseNumber (fst (step ev v)).
Proof.
  destruct ev as [isCorrect|reveal|newCode| |exerciseProp];
    try (other_event; lia).
  destruct (step_submit_cases isCorrect v) as [Heq | [Heq | (n & Hlt & _ & _ & Heq)]];
    rewrite Heq; cbn; lia.
Qed.

(** A step opens the dialog once when it takes the counter to 5, and not
    at all otherwise. *)
Lemma step_firings ev v :
  firings (snd (step ev v))
  = if reaches_five (mkStepRecord v (fst (step ev v)) (snd (step ev v)))
    then 1%nat else 0%nat.
Proof.
  unfold reaches_five. cbn.
  destruct ev as [isCorrect|reveal|newCode| |exerciseProp];
    try (other_event; destruct (completedExerciseNumber v =? 5); reflexivity).
  destruct (step_submit_cases isCorrect v) as [Heq | [Heq | (n & Hlt & _ & _ & Heq)]];
    rewrite Heq; cbn;
    try (destruct (completedExerciseNumber v =? 5); reflexivity).
  destruct (Z.eqb_spec n 5) as [->|Hne].
  - destruct (Z.eqb_spec (completedExerciseNumber v) 5) as [Hfive|_]; [lia|].
    reflexivity.
  - rewrite andb_false_r. reflexivity.
Qed.

Lemma run_cons ev evs v :
  run (ev :: evs) v
  = mkStepRecord v (fst (step ev v)) (snd (step ev v))
      :: run evs (fst (step ev v)).
Proof. cbn. destruct (step ev v) as [v' out]. reflexivity. Qed.

Lemma run_lookup_ge evs v (j : nat) r :
  run evs v !! j = Some r ->
  completedExerciseNumber v <= completedExerciseNumber (before r).
Proof.
  revert v j. induction evs as [|ev rest IH]; intros v j Hat; [discriminate Hat|].
  cbn in Hat. destruct (step ev v) as [v' out] eqn:Hstep.
  destruct j as [|j]; cbn in Hat.
  - injection Hat as <-. cbn. lia.
  - pose proof (step_completed_mono ev v) as Hmono. rewrite Hstep in Hmono.
    specialize (IH _ _ Hat). cbn in Hmono. lia.
Qed.

Lemma run_record evs v (j : nat) r :
  run evs v !! j = Some r ->
  exists ev, after r = fst (step ev (before r))
             /\ signals r = snd (step ev (before r)).
Proof.
  revert v j. induction evs as [|ev rest IH]; intros v j Hat; [discriminate Hat|].
  rewrite run_cons in Hat. destruct j as [|j]; cbn in Hat.
  - injection Hat as <-. exists ev. split; reflexivity.
  - exact (IH _ _ Hat).
Qed.

Lemma run_later evs v (i j : nat) ri rj :
  (i < j)%nat -> run evs v !! i = Some ri -> run evs v !! j = Some rj ->
  completedExerciseNumber (after ri) <= completedExerciseNumber (before rj).
Proof.
  revert v i j. induction evs as [|ev rest IH]; intros v i j Hlt Hi Hj;
    [discriminate Hi|].
  cbn in Hi, Hj. destruct (step ev v) as [v' out] eqn:Hstep.
  destruct j as [|j]; [lia|]. cbn in Hj.
  destruct i as [|i]; cbn in Hi.
  - injection Hi as <-. cbn. exact (run_lookup_ge _ _ _ _ Hj).
  - apply (IH v' i j); [lia | exact Hi | exact Hj].
Qed.

Lemma total_firings_cons r records :
  total_firings (r :: records)
  = (firings (signals r) + total_firings records)%nat.
Proof.
  unfold total_firings, firings. cbn. rewrite filter_app, length_app. reflexivity.
Qed.

Lemma reaches_five_after r :
  reaches_five r = true -> completedExerciseNumber (after r) = 5.
Proof.
  unfold reaches_five. intros Hreach.
  apply andb_true_iff in Hreach as [_ Hfive]. apply Z.eqb_eq in Hfive. exact Hfive.
Qed.

Lemma reaches_five_from_five r :
  5 <= completedExerciseNumber (before r) ->
  completedExerciseNumber (before r) <= completedExerciseNumber (after r) ->
  reaches_five r = false.
Proof.
  unfold reaches_five. intros Hge Hmono.
  destruct (Z.eqb_spec (completedExerciseNumber (before r)) 5) as [_|Hne];
    [reflexivity|].
  destruct (Z.eqb_spec (completedExerciseNumber (after r)) 5) as [Hfive|_];
    [lia | reflexivity].
Qed.

(** Once the counter is at 5 or beyond, the dialog is not opened any more. *)
Lemma total_firings_settled evs v :
  5 <= completedExerciseNumber v -> total_firings (run evs v) = 0%nat.
Proof.
  revert v. induction evs as [|ev rest IH]; intros v Hge; [reflexivity|].
  pose proof (step_completed_mono ev v) as Hmono.
  rewrite run_cons, total_firings_cons. cbn [signals].
  rewrite step_firings, reaches_five_from_five by (cbn; lia).
  rewrite IH by lia. reflexivity.
Qed.

Lemma total_firings_le_1 evs v : (total_firings (run evs v) <= 1)%nat.
Proof.
  revert v. induction evs as [|ev rest IH]; intros v; [cbn; lia|].
  rewrite run_cons, total_firings_cons. cbn [signals]. rewrite step_firings.
  destruct (reaches_five _) eqn:Hreach.
  - apply reaches_five_after in Hreach. cbn in Hreach.
    rewrite total_firings_settled by lia. lia.
  - specialize (IH (fst (step ev v))). lia.
Qed.

Lemma total_firings_reached evs v r :
  completedExerciseNumber v < 5 ->
  r ∈ run evs v -> completedExerciseNumber (after r) = 5 ->
  total_firings (run evs v) = 1%nat.
Proof.
  revert v. induction evs as [|ev rest IH]; intros v Hlt Hin Hfive.
  - cbn in Hin. apply elem_of_nil in Hin. contradiction.
  - rewrite run_cons in Hin |- *. rewrite total_firings_cons. cbn [signals].
    rewrite step_firings. unfold reaches_five. cbn [before after].
    destruct (Z.eqb_spec (completedExerciseNumber v) 5) as [Heq|_]; [lia|].
    cbn [negb andb].
    destruct (Z.eqb_spec (completedExerciseNumber (fst (step ev v))) 5)
      as [Hnow|Hnot].
    + rewrite total_firings_settled by lia. reflexivity.
    + apply elem_of_cons in Hin as [-> | Hin]; [cbn in Hfive; lia|].
      assert (Hbelow : completedExerciseNumber (fst (step ev v)) < 5).
      { apply list_elem_of_lookup in Hin as [j Hj].
        pose proof (run_lookup_ge _ _ _ _ Hj) as Hge.
        destruct (run_record _ _ _ _ Hj) as (ev' & Hafter & _).
        pose proof (step_completed_mono ev' (before r)) as Hstep.
        rewrite Hafter in Hfive. lia. }
      rewrite (IH _ Hbelow Hin Hfive). reflexivity.
Qed.

Lemma record_firings evs v r :
  r ∈ run evs v ->
  firings (signals r) = if reaches_five r then 1%nat else 0%nat.
Proof.
  intros Hin. apply list_elem_of_lookup in Hin as [j Hj].
  destruct (run_record _ _ _ _ Hj) as (ev & Hafter & Hsignals).
  rewrite Hsignals, step_firings. unfold reaches_five. cbn [before after].
  rewrite Hafter. reflexivity.
Qed.

Lemma record_mono evs v r :
  r ∈ run evs v ->
  completedExerciseNumber v <= completedExerciseNumber (before r)
  /\ completedExerciseNumber (before r) <= completedExerciseNumber (after r).
Proof.
  intros Hin. apply list_elem_of_lookup in Hin as [j Hj].
  destruct (run_record _ _ _ _ Hj) as (ev & Hafter & _).
  split; [exact (run_lookup_ge _ _ _ _ Hj)|].
  rewrite Hafter. apply step_completed_mono.
Qed.

Lemma firings_elem (out : list Signal) :
  LessonFinished ∈ out <-> firings out <> 0%nat.
Proof.
  unfold firings. induction out as [|s rest IH].
  - cbn. split; [intros Hin; apply elem_of_nil in Hin; contradiction | congruence].
  - rewrite elem_of_cons, filter_cons. destruct (decide (s = LessonFinished)) as [->|Hne].
    + cbn. split; [intros _; lia | intros _; left; reflexivity].
    + rewrite IH. split; [intros [Heq | Hrest]; [congruence | exact Hrest] | tauto].
Qed.

Lemma final_misses (n : nat) v :
  final (replicate n (Submit false)) v
  = mkView (exercise v) (code v) (tries v + Z.of_nat n)
      (solutionViewer v || ((0 <? Z.of_nat n) && (tries v + Z.of_nat n >? 2)))
      (showSolutionButton v) (completedExerciseNumber v) (isModalOpen v).
Proof.
  revert v. induction n as [|n IH]; intros v.
  - cbn. rewrite Z.add_0_r, orb_false_r. destruct v; reflexivity.
  - cbn [replicate final fold_left]. fold (final (replicate n (Submit false))).
    fold (submit false v). rewrite submit_incorrect. cbn [fst].
    rewrite IH. unfold missed. cbn [exercise code tries solutionViewer
      showSolutionButton completedExerciseNumber isModalOpen].
    replace (tries v + 1 + Z.of_nat n) with (tries v + Z.of_nat (S n)) by lia.
    f_equal.
    destruct (Z.gtb_spec (tries v + 1) 2), (Z.ltb_spec 0 (Z.of_nat n)),
      (Z.ltb_spec 0 (Z.of_nat (S n))),
      (Z.gtb_spec (tries v + Z.of_nat (S n)) 2),
      (solutionViewer v); cbn [andb orb]; try reflexivity; lia.
Qed.

(** The dialog and the signal go together: a step that signals leaves the
    dialog open, and a step that finds it closed and leaves it open has
    signalled. *)
Lemma step_dialog ev v :
  (LessonFinished ∈ snd (step ev v) -> isModalOpen (fst (step ev v)) = true)
  /\ (isModalOpen v = false -> isModalOpen (fst (step ev v)) = true ->
      LessonFinished ∈ snd (step ev v)).
Proof.
  destruct ev as [isCorrect|reveal|newCode| |exerciseProp].
  - destruct (step_submit_cases isCorrect v)
      as [Heq | [Heq | (n & Hlt & _ & _ & Heq)]]; rewrite Heq; cbn.
    + split; [intros Hin; apply elem_of_nil in Hin; contradiction | congruence].
    + split; [intros Hin; apply elem_of_nil in Hin; contradiction | congruence].
    + destruct (n =? 5).
      * split; [reflexivity | intros _ _; right; left].
      * split; [|congruence].
        intros Hin. apply elem_of_cons in Hin as [Hbad | Hin]; [discriminate Hbad|].
        apply elem_of_nil in Hin. contradiction.
  - fold (toggleReveal reveal v). rewrite toggleReveal_eq. cbn.
    split; [intros Hin; apply elem_of_nil in Hin; contradiction | congruence].
  - unfold step. cbn. rewrite Z.eqb_refl. cbn.
    split; [intros Hin; apply elem_of_nil in Hin; contradiction | congruence].
  - unfold step. cbn. rewrite Z.eqb_refl. cbn.
    split; [intros Hin; apply elem_of_nil in Hin; contradiction | discriminate].
  - unfold step. cbn. rewrite Z.eqb_refl. cbn.
    split; [intros Hin; apply elem_of_nil in Hin; contradiction | congruence].
Qed.

Lemma record_dialog evs v r :
  r ∈ run evs v ->
  (LessonFinished ∈ signals r -> isModalOpen (after r) = true)
  /\ (isModalOpen (before r) = false -> isModalOpen (after r) = true ->
      LessonFinished ∈ signals r).
Proof.
  intros Hin. apply list_elem_of_lookup in Hin as [j Hj].
  destruct (run_record _ _ _ _ Hj) as (ev & -> & ->). apply step_dialog.
Qed.

End TrackerFacts.

(** C2: after any number of incorrect submissions from the initial state
    the attempt counter equals that number, and the reveal flag is true
    exactly when the counter exceeds 2, that is from the third incorrect
    submission on and never before. *)
Theorem reveal_after_third_miss :
  forall (exerciseProp : option string) (n : nat),
    tries (final (replicate n (Submit false)) (fst (mount exerciseProp)))
    = Z.of_nat n
    /\ (solutionViewer (final (replicate n (Submit false)) (fst (mount exerciseProp)))
        = true
        <-> 2 < tries (final (replicate n (Submit false)) (fst (mount exerciseProp))))
    /\ (solutionViewer (final (replicate n (Submit false)) (fst (mount exerciseProp)))
        = true
        <-> (3 <= n)%nat).
Proof.
  intros exerciseProp n. rewrite final_misses. cbn.
  destruct (Z.ltb_spec 0 (Z.of_nat n)), (Z.gtb_spec (Z.of_nat n) 2);
    cbn; repeat split; intros; try discriminate; try reflexivity; lia.
Qed.

(** C3: a submission never lowers the completion counter; the counter
    changes only on a correct submission whose exercise number is strictly
    above it, and then it becomes that number. *)
Theorem completed_counter_monotone :
  forall (v : View) (isCorrect : bool),
    completedExerciseNumber v
    <= completedExerciseNumber (fst (submit isCorrect v))
    /\ (completedExerciseNumber (fst (submit isCorrect v))
        <> completedExerciseNumber v ->
        isCorrect = true
        /\ exerciseNumber v = Num (completedExerciseNumber (fst (submit isCorrect v)))
        /\ completedExerciseNumber v
           < completedExerciseNumber (fst (submit isCorrect v)))
    /\ (forall n : Z,
           isCorrect = true -> exerciseNumber v = Num n ->
           completedExerciseNumber v < n ->
           completedExerciseNumber (fst (submit isCorrect v)) = n).
Proof.
  intros v isCorrect. split; [apply step_completed_mono | split].
  - unfold submit.
    destruct (step_submit_cases isCorrect v)
      as [Heq | [Heq | (n & Hlt & Hcorrect & Hnum & Heq)]];
      rewrite Heq; cbn; intros Hchanged; try congruence.
    repeat split; assumption.
  - intros n -> Hnum Hlt. rewrite (submit_correct_advance v n Hnum Hlt).
    reflexivity.
Qed.

Lemma completed_counter_monotone_witness :
  exerciseNumber (initial (Some "exercise3")) = Num 3
  /\ completedExerciseNumber (initial (Some "exercise3")) < 3
  /\ completedExerciseNumber (fst (submit true (initial (Some "exercise3")))) = 3.
Proof.
  split; [reflexivity | split; [reflexivity|]].
  apply (proj2 (proj2 (completed_counter_monotone (initial (Some "exercise3")) true)) 3);
    reflexivity.
Defined.

(** C4: in every session the dialog is opened by a step exactly when that
    step takes the completion counter to 5 from another value: such a step
    signals and leaves the dialog open, and the dialog, closed at mounting,
    goes from closed to open on no other step; mounting opens nothing, a
    step that leaves the counter where it was opens nothing, no step after
    such a transition opens it again, so it is opened at most once, and
    exactly once in a session whose counter gets to 5. *)
Theorem lesson_finished_on_transition_to_five :
  forall (exerciseProp : option string) (evs : list Event),
    (snd (mount exerciseProp) = []
     /\ isModalOpen (fst (mount exerciseProp)) = false)
    /\ (forall r, r ∈ session exerciseProp evs ->
          firings (signals r) = (if reaches_five r then 1%nat else 0%nat)
          /\ (LessonFinished ∈ signals r
              <-> completedExerciseNumber (before r) <> 5
                  /\ completedExerciseNumber (after r) = 5)
          /\ (completedExerciseNumber (after r) = completedExerciseNumber (before r) ->
              LessonFinished ∉ signals r)
          /\ (LessonFinished ∈ signals r -> isModalOpen (after r) = true)
          /\ (isModalOpen (before r) = false -> isModalOpen (after r) = true ->
              completedExerciseNumber (before r) <> 5
              /\ completedExerciseNumber (after r) = 5))
    /\ (forall (i j : nat) ri rj,
          (i < j)%nat ->
          session exerciseProp evs !! i = Some ri ->
          session exerciseProp evs !! j = Some rj ->
          LessonFinished ∈ signals ri -> LessonFinished ∉ signals rj)
    /\ (total_firings (session exerciseProp evs) <= 1)%nat
    /\ ((exists r, r ∈ session exerciseProp evs
                   /\ completedExerciseNumber (after r) = 5) ->
        total_firings (session exerciseProp evs) = 1%nat).
Proof.
  intros exerciseProp evs. unfold session.
  assert (Hstep : forall r, r ∈ run evs (fst (mount exerciseProp)) ->
            (LessonFinished ∈ signals r
             <-> completedExerciseNumber (before r) <> 5
                 /\ completedExerciseNumber (after r) = 5)).
  { intros r Hin. rewrite firings_elem, (record_firings _ _ _ Hin).
    unfold reaches_five.
    destruct (Z.eqb_spec (completedExerciseNumber (before r)) 5),
      (Z.eqb_spec (completedExerciseNumber (after r)) 5); cbn;
      split; try intros [? ?]; try congruence; try lia; intros; split; assumption. }
  split; [split; reflexivity | split; [|split; [|split]]].
  - intros r Hin. split; [exact (record_firings _ _ _ Hin) | split; [|split; [|split]]].
    + exact (Hstep r Hin).
    + intros Hsame Hfired. apply (Hstep r Hin) in Hfired as [Hnot Hfive].
      congruence.
    + exact (proj1 (record_dialog _ _ _ Hin)).
    + intros Hclosed Hopen. apply (Hstep r Hin).
      exact (proj2 (record_dialog _ _ _ Hin) Hclosed Hopen).
  - intros i j ri rj Hlt Hi Hj Hfired Hagain.
    pose proof (run_later _ _ _ _ _ _ Hlt Hi Hj) as Hlater.
    apply Hstep in Hfired as [_ Hfive];
      [|apply list_elem_of_lookup; exists i; exact Hi].
    apply Hstep in Hagain as [Hnot Hfive'];
      [|apply list_elem_of_lookup; exists j; exact Hj].
    assert (Hin : rj ∈ run evs (fst (mount exerciseProp)))
      by (apply list_elem_of_lookup; exists j; exact Hj).
    pose proof (record_mono _ _ _ Hin) as [_ Hmono]. lia.
  - apply total_firings_le_1.
  - intros (r & Hin & Hfive).
    apply (total_firings_reached _ _ r); [cbn; lia | exact Hin | exact Hfive].
Qed.

Lemma lesson_finished_on_transition_to_five_witness :
  (exists r, r ∈ session (Some "exercise5") sample_events
             /\ completedExerciseNumber (after r) = 5)
  /\ total_firings (session (Some "exercise5") sample_events) = 1%nat
  /\ map (fun r => isModalOpen (after r)) (session (Some "exercise5") sample_events)
     = [false; true; false; false].
Proof.
  assert (Hreached : exists r, r ∈ session (Some "exercise5") sample_events
                               /\ completedExerciseNumber (after r) = 5).
  { eexists. split; [apply list_elem_of_lookup; exists 1%nat; reflexivity|].
    reflexivity. }
  split; [exact Hreached | split; [|reflexivity]].
  apply (proj2 (proj2 (proj2 (proj2
           (lesson_finished_on_transition_to_five (Some "exercise5") sample_events))))
           Hreached).
Defined.

(** C5: whatever the attempt counter and the reveal flag were, a correct
    submission leaves the attempt counter at 0 and the reveal flag false. *)
Theorem correct_submission_resets :
  forall v : View,
    tries (fst (submit true v)) = 0
    /\ solutionViewer (fst (submit true v)) = false.
Proof.
  intros v.
  destruct (submit_correct_cases v) as [(n & _ & _ & Heq) | [_ Heq]];
    rewrite Heq; split; reflexivity.
Qed.

(** C8: [toggleReveal reveal] sets the reveal flag to [reveal] and the
    attempt counter to 0; toggling on and then off leaves the counter at 0
    after each of the two. *)
Theorem toggleReveal_sets_flag_resets_tries :
  forall (v : View) (reveal : bool),
    solutionViewer (fst (toggleReveal reveal v)) = reveal
    /\ tries (fst (toggleReveal reveal v)) = 0
    /\ tries (fst (toggleReveal true v)) = 0
    /\ tries (fst (toggleReveal false (fst (toggleReveal true v)))) = 0
    /\ solutionViewer (fst (toggleReveal false (fst (toggleReveal true v)))) = false.
Proof.
  intros v reveal. rewrite !toggleReveal_eq. repeat split; reflexivity.
Qed.

(** C9: an incorrect submission calls nothing (no [onComplete], no dialog)
    and leaves the completion counter as it was; it adds one to the attempt
    counter, sets the reveal flag when the new count exceeds 2, and changes
    no other part of the state. *)
Theorem incorrect_submission_frame :
  forall v : View,
    snd (submit false v) = []
    /\ notifications (snd (submit false v)) = []
    /\ completedExerciseNumber (fst (submit false v)) = completedExerciseNumber v
    /\ tries (fst (submit false v)) = tries v + 1
    /\ solutionViewer (fst (submit false v))
       = (if tries v + 1 >? 2 then true else solutionViewer v)
    /\ exercise (fst (submit false v)) = exercise v
    /\ code (fst (submit false v)) = code v
    /\ showSolutionButton (fst (submit false v)) = showSolutionButton v
    /\ isModalOpen (fst (submit false v)) = isModalOpen v.
Proof.
  intros v. rewrite submit_incorrect. repeat split; reflexivity.
Qed.

(** C10: when the exercise name, with ["exercise"] removed, parses to
    [NaN], a correct submission does not call [onComplete] and leaves the
    completion counter as it was, and still sets the attempt counter to 0
    and the reveal flag to false. *)
Theorem correct_submission_without_number :
  forall v : View,
    exerciseNumber v = NaN ->
    notifications (snd (submit true v)) = []
    /\ completedExerciseNumber (fst (submit true v)) = completedExerciseNumber v
    /\ tries (fst (submit true v)) = 0
    /\ solutionViewer (fst (submit true v)) = false.
Proof.
  intros v Hnan. rewrite submit_correct_stay; [repeat split; reflexivity|].
  rewrite Hnan. reflexivity.
Qed.

Lemma correct_submission_without_number_witness :
  exerciseNumber (initial (Some "intro")) = NaN
  /\ notifications (snd (submit true (initial (Some "intro")))) = []
  /\ completedExerciseNumber (fst (submit true (initial (Some "intro")))) = 0
  /\ tries (fst (submit true (initial (Some "intro")))) = 0
  /\ solutionViewer (fst (submit true (initial (Some "intro")))) = false.
Proof.
  split; [reflexivity|].
  apply (correct_submission_without_number (initial (Some "intro"))).
  reflexivity.
Defined.

(* ===================================================================== *)
(** * Further properties of LessonNavigation *)
(* ===================================================================== *)

Section NavigationMore.

Implicit Types (data : list Lesson) (lessonId : string).

Lemma array_find_some data lessonId lesson :
  array_find (fun l => String.eqb (id l) lessonId) data = Some lesson ->
  lesson ∈ data /\ id lesson = lessonId.
Proof.
  induction data as [|first rest IH]; [discriminate|].
  cbn. destruct (String.eqb_spec (id first) lessonId) as [Heq|Hne].
  - intros [= <-]. split; [left | exact Heq].
  - intros Hrest. destruct (IH Hrest) as [Hin Hid]. split; [right; exact Hin | exact Hid].
Qed.

Lemma array_get_entry data (i : Z) lesson :
  array_get data i = Entry lesson -> 0 <= i /\ data !! Z.to_nat i = Some lesson.
Proof.
  unfold array_get. destruct (Z.ltb_spec i 0) as [Hneg|Hpos]; [discriminate|].
  destruct (data !! Z.to_nat i) as [found|]; [|discriminate].
  intros [= <-]. split; [exact Hpos | reflexivity].
Qed.

Lemma well_indexed_lookup data (pos : nat) lesson :
  well_indexed data -> data !! pos = Some lesson ->
  index lesson = Z.of_nat pos + 1.
Proof.
  unfold well_indexed. intros Hwell Hat.
  pose proof (lookup_lt_Some _ _ _ Hat) as Hlt.
  assert (Hleft : map index data !! pos = Some (index lesson))
    by (rewrite list_lookup_fmap, Hat; reflexivity).
  rewrite Hwell, list_lookup_fmap, lookup_seq_lt in Hleft by exact Hlt.
  cbn in Hleft. injection Hleft as <-. reflexivity.
Qed.

(** With distinct identifiers the scan finds a lesson where it stands. *)
Lemma spec_position_unique data (pos : nat) lesson :
  NoDup (map id data) -> data !! pos = Some lesson ->
  spec_position data (id lesson) = Some (pos, lesson).
Proof.
  intros Hnodup Hat. unfold spec_position. apply list_find_Some.
  split; [exact Hat | split; [reflexivity|]].
  intros j other Hother Hlt Hsame.
  assert (Hj : map id data !! j = Some (id lesson))
    by (rewrite list_lookup_fmap, Hother; cbn; congruence).
  assert (Hp : map id data !! pos = Some (id lesson))
    by (rewrite list_lookup_fmap, Hat; reflexivity).
  pose proof (NoDup_lookup _ _ _ _ Hnodup Hj Hp). lia.
Qed.

(** The pagination of a lesson that stands where its [index] says. *)
Lemma LessonNavigation_at data lessonId (pos : nat) lesson :
  spec_position data lessonId = Some (pos, lesson) ->
  index lesson = Z.of_nat pos + 1 ->
  LessonNavigation data lessonId = Ok (spec_neighbours data pos).
Proof.
  intros Hpos Hindex.
  assert (Hat : data !! pos = Some lesson).
  { unfold spec_position in Hpos. apply list_find_Some in Hpos. tauto. }
  pose proof (lookup_lt_Some _ _ _ Hat) as Hlt.
  unfold LessonNavigation. rewrite array_find_scan, Hpos. cbn.
  rewrite Hindex. unfold spec_neighbours.
  replace (Z.of_nat pos + 1 - 1) with (Z.of_nat pos) by lia.
  do 2 f_equal.
  - destruct pos as [|prior]; [reflexivity|].
    destruct (Z.gtb_spec (Z.of_nat (S prior)) 0) as [_|Hle]; [|lia].
    replace (Z.of_nat (S prior) - 1) with (Z.of_nat prior) by lia.
    destruct (lookup_lt_is_Some_2 data prior ltac:(lia)) as [p Hp].
    rewrite (array_get_inside _ _ _ Hp), Hp. reflexivity.
  - destruct (Z.ltb_spec (Z.of_nat pos) (Z.of_nat (length data) - 1)) as [Hin|Hout].
    + destruct (lookup_lt_is_Some_2 data (S pos) ltac:(lia)) as [n Hn].
      replace (Z.of_nat pos + 1) with (Z.of_nat (S pos)) by lia.
      rewrite (array_get_inside _ _ _ Hn), Hn. reflexivity.
    + rewrite (lookup_ge_None_2 data (S pos)) by lia. reflexivity.
Qed.

(** What a successful call has found, on well indexed data. *)
Lemma LessonNavigation_ok_position data lessonId pagination :
  well_indexed data ->
  LessonNavigation data lessonId = Ok pagination ->
  exists (pos : nat) lesson,
    data !! pos = Some lesson /\ id lesson = lessonId
    /\ pagination = spec_neighbours data pos.
Proof.
  intros Hwell Hok.
  destruct (spec_position data lessonId) as [[pos lesson]|] eqn:Hpos.
  - assert (Hfound : data !! pos = Some lesson /\ id lesson = lessonId).
    { unfold spec_position in Hpos. apply list_find_Some in Hpos. tauto. }
    destruct Hfound as [Hat Hid].
    rewrite (LessonNavigation_at _ _ _ _ Hpos (well_indexed_lookup _ _ _ Hwell Hat)) in Hok.
    injection Hok as <-. exists pos, lesson. repeat split; assumption.
  - unfold LessonNavigation in Hok. rewrite array_find_scan, Hpos in Hok.
    discriminate Hok.
Qed.

End NavigationMore.

(** X1: [LessonNavigation] returns a pagination exactly when some lesson of
    the list has the identifier; on the empty list it always throws. *)
Theorem LessonNavigation_ok_iff_match :
  forall (data : list Lesson) (lessonId : string),
    ((exists pagination, LessonNavigation data lessonId = Ok pagination)
     <-> (exists lesson, lesson ∈ data /\ id lesson = lessonId))
    /\ LessonNavigation [] lessonId = Throw TypeError.
Proof.
  intros data lessonId. split; [split|reflexivity].
  - intros [pagination Hok]. unfold LessonNavigation in Hok.
    destruct (array_find _ data) as [lesson|] eqn:Hfind; [|discriminate Hok].
    exists lesson. exact (array_find_some _ _ _ Hfind).
  - intros (lesson & Hin & Hid). unfold LessonNavigation.
    destruct (array_find _ data) as [found|] eqn:Hfind.
    + cbn. eexists. reflexivity.
    + exfalso. rewrite array_find_scan in Hfind.
      destruct (spec_position data lessonId) as [hit|] eqn:Hpos; [discriminate Hfind|].
      unfold spec_position in Hpos.
      pose proof (proj1 (list_find_None _ _) Hpos) as Hall.
      rewrite Forall_forall in Hall. exact (Hall lesson Hin Hid).
Qed.

(** X2: whatever the [index] fields are, a lesson returned as [prevLesson]
    or as [nextLesson] is one of the lessons of the list. *)
Theorem LessonNavigation_entries_from_data :
  forall (data : list Lesson) (lessonId : string) (pagination : Pagination)
         (lesson : Lesson),
    LessonNavigation data lessonId = Ok pagination ->
    prevLesson pagination = Entry lesson \/ nextLesson pagination = Entry lesson ->
    lesson ∈ data.
Proof.
  intros data lessonId pagination lesson Hok Hentry. unfold LessonNavigation in Hok.
  destruct (get_index _) as [found_index|e]; [|discriminate Hok].
  cbn in Hok. injection Hok as <-. cbn in Hentry.
  destruct Hentry as [Hprev | Hnext].
  - destruct (found_index - 1 >? 0); [|discriminate Hprev].
    apply array_get_entry in Hprev as [_ Hat].
    apply list_elem_of_lookup. eexists. exact Hat.
  - destruct (found_index - 1 <? Z.of_nat (length data) - 1); [|discriminate Hnext].
    apply array_get_entry in Hnext as [_ Hat].
    apply list_elem_of_lookup. eexists. exact Hat.
Qed.

Lemma LessonNavigation_entries_from_data_witness :
  LessonNavigation lessons_abc "b"
  = Ok (mkPagination (Entry (mkLesson "a" 1 "A")) (Entry (mkLesson "c" 3 "C")))
  /\ mkLesson "c" 3 "C" ∈ lessons_abc.
Proof.
  split; [reflexivity|].
  apply (LessonNavigation_entries_from_data lessons_abc "b"
           (mkPagination (Entry (mkLesson "a" 1 "A")) (Entry (mkLesson "c" 3 "C"))));
    [reflexivity | right; reflexivity].
Defined.

(** X3: on well indexed data with distinct identifiers, the Next link of a
    lesson's page leads to a lesson whose page has its Prev link back to
    the first lesson. *)
Theorem navigation_next_then_prev :
  forall (data : list Lesson) (lessonId : string) (left : NavItem)
         (href text : string),
    well_indexed data ->
    NoDup (map id data) ->
    LessonNavigation_render data lessonId = Ok (left, LinkTo href text) ->
    exists (here there : Lesson) (right : NavItem),
      here ∈ data /\ id here = lessonId
      /\ there ∈ data /\ href = "/solidity/" ++ id there
      /\ LessonNavigation_render data (id there)
         = Ok (LinkTo ("/solidity/" ++ lessonId) ("Prev lesson: " ++ name here),
               right).
Proof.
  intros data lessonId left href text Hwell Hnodup Hrender.
  unfold LessonNavigation_render in Hrender.
  destruct (LessonNavigation data lessonId) as [pagination|e] eqn:Hok;
    [|discriminate Hrender].
  destruct (LessonNavigation_ok_position _ _ _ Hwell Hok)
    as (pos & here & Hhere & Hid & ->).
  cbn in Hrender. injection Hrender as _ Hnext.
  destruct (data !! S pos) as [there|] eqn:Hthere; [|discriminate Hnext].
  cbn in Hnext. injection Hnext as <- _.
  exists here, there, (render_next (nextLesson (spec_neighbours data (S pos)))).
  split; [apply list_elem_of_lookup; eexists; exact Hhere|].
  split; [exact Hid|].
  split; [apply list_elem_of_lookup; eexists; exact Hthere|].
  split; [reflexivity|].
  unfold LessonNavigation_render.
  rewrite (LessonNavigation_at data (id there) (S pos) there
             (spec_position_unique _ _ _ Hnodup Hthere)
             (well_indexed_lookup _ _ _ Hwell Hthere)).
  cbn. rewrite Hhere. cbn. rewrite Hid. reflexivity.
Qed.

Lemma navigation_next_then_prev_witness :
  well_indexed lessons_abc
  /\ NoDup (map id lessons_abc)
  /\ exists (here there : Lesson) (right : NavItem),
      here ∈ lessons_abc /\ id here = "a"
      /\ there ∈ lessons_abc /\ "/solidity/b" = "/solidity/" ++ id there
      /\ LessonNavigation_render lessons_abc (id there)
         = Ok (LinkTo ("/solidity/" ++ "a") ("Prev lesson: " ++ name here), right).
Proof.
  assert (Hwell : well_indexed lessons_abc) by reflexivity.
  assert (Hnodup : NoDup (map id lessons_abc))
    by (apply (bool_decide_unpack _); vm_compute; exact I).
  split; [exact Hwell | split; [exact Hnodup|]].
  apply (navigation_next_then_prev lessons_abc "a" BackLink "/solidity/b"
           "Next lesson: B" Hwell Hnodup).
  reflexivity.
Defined.

(** X4: on well indexed data with distinct identifiers, the Prev link of a
    lesson's page leads to a lesson whose page has its Next link back to
    the first lesson. *)
Theorem navigation_prev_then_next :
  forall (data : list Lesson) (lessonId : string) (right : NavItem)
         (href text : string),
    well_indexed data ->
    NoDup (map id data) ->
    LessonNavigation_render data lessonId = Ok (LinkTo href text, right) ->
    exists (here there : Lesson) (left : NavItem),
      here ∈ data /\ id here = lessonId
      /\ there ∈ data /\ href = "/solidity/" ++ id there
      /\ LessonNavigation_render data (id there)
         = Ok (left,
               LinkTo ("/solidity/" ++ lessonId) ("Next lesson: " ++ name here)).
Proof.
  intros data lessonId right href text Hwell Hnodup Hrender.
  unfold LessonNavigation_render in Hrender.
  destruct (LessonNavigation data lessonId) as [pagination|e] eqn:Hok;
    [|discriminate Hrender].
  destruct (LessonNavigation_ok_position _ _ _ Hwell Hok)
    as (pos & here & Hhere & Hid & ->).
  cbn in Hrender. injection Hrender as Hprev _.
  destruct pos as [|prior]; [discriminate Hprev|].
  destruct (data !! prior) as [there|] eqn:Hthere; [|discriminate Hprev].
  cbn in Hprev. injection Hprev as <- _.
  exists here, there, (render_prev (prevLesson (spec_neighbours data prior))).
  split; [apply list_elem_of_lookup; eexists; exact Hhere|].
  split; [exact Hid|].
  split; [apply list_elem_of_lookup; eexists; exact Hthere|].
  split; [reflexivity|].
  unfold LessonNavigation_render.
  rewrite (LessonNavigation_at data (id there) prior there
             (spec_position_unique _ _ _ Hnodup Hthere)
             (well_indexed_lookup _ _ _ Hwell Hthere)).
  cbn. rewrite Hhere. cbn. rewrite Hid. reflexivity.
Qed.

Lemma navigation_prev_then_next_witness :
  well_indexed lessons_abc
  /\ NoDup (map id lessons_abc)
  /\ exists (here there : Lesson) (left : NavItem),
      here ∈ lessons_abc /\ id here = "c"
      /\ there ∈ lessons_abc /\ "/solidity/b" = "/solidity/" ++ id there
      /\ LessonNavigation_render lessons_abc (id there)
         = Ok (left, LinkTo ("/solidity/" ++ "c") ("Next lesson: " ++ name here)).
Proof.
  assert (Hwell : well_indexed lessons_abc) by reflexivity.
  assert (Hnodup : NoDup (map id lessons_abc))
    by (apply (bool_decide_unpack _); vm_compute; exact I).
  split; [exact Hwell | split; [exact Hnodup|]].
  apply (navigation_prev_then_next lessons_abc "c" EndOfChallenges "/solidity/b"
           "Prev lesson: B" Hwell Hnodup).
  reflexivity.
Defined.

(** X5: on well indexed data the page of a lesson shows the back link
    exactly when the lesson is first in the list and the closing text
    exactly when it is last. *)
Theorem navigation_ends :
  forall (data : list Lesson) (lessonId : string) (pos : nat) (lesson : Lesson)
         (left right : NavItem),
    well_indexed data ->
    spec_position data lessonId = Some (pos, lesson) ->
    LessonNavigation_render data lessonId = Ok (left, right) ->
    (left = BackLink <-> pos = 0%nat)
    /\ (right = EndOfChallenges <-> S pos = length data).
Proof.
  intros data lessonId pos lesson left right Hwell Hpos Hrender.
  assert (Hat : data !! pos = Some lesson).
  { unfold spec_position in Hpos. apply list_find_Some in Hpos. tauto. }
  pose proof (lookup_lt_Some _ _ _ Hat) as Hlt.
  unfold LessonNavigation_render in Hrender.
  rewrite (LessonNavigation_at _ _ _ _ Hpos (well_indexed_lookup _ _ _ Hwell Hat))
    in Hrender.
  cbn in Hrender. injection Hrender as <- <-. split.
  - destruct pos as [|prior]; [split; reflexivity|].
    destruct (lookup_lt_is_Some_2 data prior ltac:(lia)) as [p ->]. cbn.
    split; intros; discriminate.
  - destruct (data !! S pos) as [n|] eqn:Hn; cbn.
    + pose proof (lookup_lt_Some _ _ _ Hn). split; [discriminate | lia].
    + apply lookup_ge_None_1 in Hn. split; [lia | reflexivity].
Qed.

Lemma navigation_ends_witness :
  well_indexed lessons_abc
  /\ spec_position lessons_abc "c" = Some (2%nat, mkLesson "c" 3 "C")
  /\ ((LinkTo "/solidity/b" "Prev lesson: B" = BackLink <-> 2%nat = 0%nat)
      /\ (EndOfChallenges = EndOfChallenges <-> 3%nat = length lessons_abc)).
Proof.
  assert (Hwell : well_indexed lessons_abc) by reflexivity.
  split; [exact Hwell | split; [reflexivity|]].
  apply (navigation_ends lessons_abc "c" 2%nat (mkLesson "c" 3 "C") _ _ Hwell);
    reflexivity.
Defined.

(* ===================================================================== *)
(** * Further properties of the content look-up *)
(* ===================================================================== *)



(* ===================================================================== *)
(** * Further properties of the string operations *)
(* ===================================================================== *)

Section StringFacts.

Implicit Types (pat rep s : string).

Lemma append_cons (c : ascii) pat s : String c pat ++ s = String c (pat ++ s).
Proof. reflexivity. Qed.

Lemma append_empty s : "" ++ s = s.
Proof. reflexivity. Qed.

Lemma append_empty_r s : s ++ "" = s.
Proof.
  induction s as [|c s IH]; [reflexivity|]. rewrite append_cons, IH. reflexivity.
Qed.

Lemma append_assoc (s1 s2 s3 : string) : (s1 ++ s2) ++ s3 = s1 ++ (s2 ++ s3).
Proof.
  induction s1 as [|c s1 IH]; [reflexivity|].
  rewrite !append_cons, IH. reflexivity.
Qed.

Lemma prefix_append pat s : String.prefix pat (pat ++ s) = true.
Proof.
  induction pat as [|c pat IH]; [destruct s; reflexivity|].
  rewrite append_cons. cbn [String.prefix].
  destruct (ascii_dec c c) as [_|Hne]; [exact IH | congruence].
Qed.

Lemma string_drop_append pat s : string_drop (String.length pat) (pat ++ s) = s.
Proof.
  induction pat as [|c pat IH]; [reflexivity|].
  rewrite append_cons. cbn [String.length string_drop]. exact IH.
Qed.

Lemma replace_from_eq pat rep (before : string) s :
  replace_from pat rep before s
  = if String.prefix pat s
    then before
         ++ expand_replacement pat before (string_drop (String.length pat) s) rep
         ++ string_drop (String.length pat) s
    else match s with
         | EmptyString => before
         | String c rest => replace_from pat rep (before ++ String c "") rest
         end.
Proof. destruct s; reflexivity. Qed.

(** The scan stops at the first place where the pattern starts. *)
Lemma replace_from_first pat rep (pre before post : string) :
  (forall i : nat, (i < String.length pre)%nat ->
                   String.prefix pat (string_drop i (pre ++ pat ++ post)) = false) ->
  replace_from pat rep before (pre ++ pat ++ post)
  = (before ++ pre) ++ expand_replacement pat (before ++ pre) post rep ++ post.
Proof.
  revert before. induction pre as [|c pre IH]; intros before Hfirst.
  - rewrite append_empty, append_empty_r, replace_from_eq, prefix_append,
      string_drop_append. reflexivity.
  - rewrite append_cons, replace_from_eq.
    pose proof (Hfirst 0%nat ltac:(cbn; lia)) as Hhere.
    rewrite append_cons in Hhere. cbn [string_drop] in Hhere. rewrite Hhere.
    assert (Hpassed : (before ++ String c "") ++ pre = before ++ String c pre)
      by (rewrite append_assoc; reflexivity).
    rewrite IH.
    + rewrite Hpassed. reflexivity.
    + intros i Hlt. pose proof (Hfirst (S i) ltac:(cbn; lia)) as Hlater.
      rewrite append_cons in Hlater. exact Hlater.
Qed.

Lemma replace_from_none pat rep (before : string) s :
  (forall i : nat, String.prefix pat (string_drop i s) = false) ->
  replace_from pat rep before s = before ++ s.
Proof.
  revert before. induction s as [|c s IH]; intros before Hnone;
    rewrite replace_from_eq; pose proof (Hnone 0%nat) as Hhere;
    cbn [string_drop] in Hhere; rewrite Hhere.
  - rewrite append_empty_r. reflexivity.
  - rewrite IH by (intros i; exact (Hnone (S i))).
    rewrite append_assoc. reflexivity.
Qed.

(** A replacement without a dollar sign stands for itself. *)
Lemma expand_replacement_plain (matched before after rep : string) :
  has_dollar rep = false -> expand_replacement matched before after rep = rep.
Proof.
  induction rep as [|c rep IH]; [reflexivity|].
  cbn [has_dollar]. intros Hplain. apply orb_false_iff in Hplain as [Hc Hrest].
  assert (Hstep : expand_replacement matched before after (String c rep)
                  = String c (expand_replacement matched before after rep)).
  { destruct (Ascii.eqb_spec c "$") as [->|Hne]; [discriminate Hc|].
    destruct c as [[] [] [] [] [] [] [] []]; try reflexivity.
    congruence. }
  rewrite Hstep, (IH Hrest). reflexivity.
Qed.

Lemma replace_prefix_empty pat s : replace pat "" (pat ++ s) = s.
Proof.
  unfold replace. rewrite replace_from_eq, prefix_append, string_drop_append.
  reflexivity.
Qed.

Lemma parse_digits_decimal (d : Decimal.uint) (a : nat) :
  parse_digits 10 (DecimalString.NilEmpty.string_of_uint d) (Some (Z.of_nat a))
  = Some (Z.of_nat (Nat.of_uint_acc d a)).
Proof.
  revert a. induction d as [|d IH|d IH|d IH|d IH|d IH|d IH|d IH|d IH|d IH|d IH];
    intros a; [reflexivity|..];
    cbn [DecimalString.NilEmpty.string_of_uint parse_digits Nat.of_uint_acc];
    match goal with
    | |- context [digit_value ?c] =>
        let v := eval vm_compute in (digit_value c) in
        change (digit_value c) with v
    end;
    cbn [Z.ltb Z.compare Pos.compare Pos.compare_cont default];
    rewrite <- IH; do 2 f_equal; rewrite Nat.tail_mul_spec;
    unfold Datatypes.id; lia.
Qed.

Lemma parse_digits_start (d : Decimal.uint) :
  d <> Decimal.Nil ->
  parse_digits 10 (DecimalString.NilEmpty.string_of_uint d) None
  = Some (Z.of_nat (Nat.of_uint d)).
Proof.
  intros Hnil. unfold Nat.of_uint. rewrite <- parse_digits_decimal.
  destruct d; [congruence|..]; reflexivity.
Qed.

(** [parseInt] reads a string of decimal digits as the number they write. *)
Lemma parseInt_decimal (d : Decimal.uint) :
  d <> Decimal.Nil ->
  parseInt (DecimalString.NilEmpty.string_of_uint d)
  = Num (Z.of_nat (Nat.of_uint d)).
Proof.
  intros Hnil. pose proof (parse_digits_start d Hnil) as Hstart.
  destruct d as [|d|d|d|d|d|d|d|d|d|d]; [congruence|..].
  1: destruct d.
  all: cbn [DecimalString.NilEmpty.string_of_uint] in Hstart.
  all: unfold parseInt; cbn [DecimalString.NilEmpty.string_of_uint trim_start].
  all: match goal with
    | |- context [is_white_space ?c] =>
        let v := eval vm_compute in (is_white_space c) in
        change (is_white_space c) with v
    end; cbv iota.
  all: rewrite Hstart; f_equal; lia.
Qed.

Lemma to_uint_not_nil (n : nat) : Nat.to_uint n <> Decimal.Nil.
Proof.
  intros Hnil. pose proof (DecimalNat.Unsigned.of_to n) as Hback.
  rewrite Hnil in Hback. cbn in Hback. subst n. discriminate Hnil.
Qed.

Lemma exerciseNumber_exerciseName (n : nat) (v : View) :
  exercise v = exerciseName n -> exerciseNumber v = Num (Z.of_nat n).
Proof.
  intros Hname. unfold exerciseNumber. rewrite Hname. unfold exerciseName.
  rewrite replace_prefix_empty.
  rewrite parseInt_decimal by apply to_uint_not_nil.
  rewrite DecimalNat.Unsigned.of_to. reflexivity.
Qed.

End StringFacts.

(** X7: [replace] rewrites the first occurrence of the pattern and nothing
    else: when the pattern does not start anywhere inside [pre], the string
    [pre ++ pat ++ post] becomes [pre], then what the replacement stands
    for, then [post]; a replacement without a dollar sign, as the empty one
    of the component, is inserted as it is; and a string in which the
    pattern starts nowhere is returned as it is. *)
Theorem replace_rewrites_first_occurrence :
  forall pat rep : string,
    (forall pre post : string,
        (forall i : nat, (i < String.length pre)%nat ->
                         String.prefix pat (string_drop i (pre ++ pat ++ post)) = false) ->
        replace pat rep (pre ++ pat ++ post)
        = pre ++ expand_replacement pat pre post rep ++ post
        /\ (has_dollar rep = false ->
            replace pat rep (pre ++ pat ++ post) = pre ++ rep ++ post))
    /\ (forall s : string,
           (forall i : nat, String.prefix pat (string_drop i s) = false) ->
           replace pat rep s = s).
Proof.
  intros pat rep. split.
  - intros pre post Hfirst.
    assert (Hscan : replace pat rep (pre ++ pat ++ post)
                    = pre ++ expand_replacement pat pre post rep ++ post).
    { unfold replace. rewrite (replace_from_first pat rep pre "" post Hfirst).
      rewrite !append_empty. reflexivity. }
    split; [exact Hscan|].
    intros Hplain. rewrite Hscan, expand_replacement_plain by exact Hplain.
    reflexivity.
  - intros s Hnone. unfold replace. rewrite (replace_from_none _ _ _ _ Hnone).
    apply append_empty.
Qed.

Lemma replace_rewrites_first_occurrence_witness :
  (forall i : nat, (i < String.length "my-")%nat ->
     String.prefix "exercise"
       (string_drop i ("my-" ++ "exercise" ++ "7-exercise")) = false)
  /\ has_dollar "" = false
  /\ replace "exercise" "" ("my-" ++ "exercise" ++ "7-exercise")
     = "my-" ++ "" ++ "7-exercise".
Proof.
  assert (Hfirst : forall i : nat, (i < String.length "my-")%nat ->
            String.prefix "exercise"
              (string_drop i ("my-" ++ "exercise" ++ "7-exercise")) = false).
  { intros i Hlt. destruct i as [|[|[|i]]]; [reflexivity .. | cbn in Hlt; lia]. }
  split; [exact Hfirst | split; [reflexivity|]].
  apply (proj2 (proj1 (replace_rewrites_first_occurrence "exercise" "")
                      "my-" "7-exercise" Hfirst)).
  reflexivity.
Defined.

(** X8: for [n] below 2^53, the exercise named ["exercise"] followed by
    the decimal digits of [n] has the number [n]; on a freshly mounted
    component its first correct submission takes the counter to [n], calls
    [onComplete n] when [n] is positive and nothing otherwise, and opens
    the dialog exactly for [n = 5]. *)
Theorem exerciseName_number :
  forall n : nat,
    Z.of_nat n < 2 ^ 53 ->
    exerciseNumber (initial (Some (exerciseName n))) = Num (Z.of_nat n)
    /\ completedExerciseNumber (fst (submit true (initial (Some (exerciseName n)))))
       = Z.of_nat n
    /\ snd (submit true (initial (Some (exerciseName n))))
       = (if decide (n = 0%nat) then []
          else OnComplete (Z.of_nat n)
                 :: if decide (n = 5%nat) then [LessonFinished] else [])
    /\ isModalOpen (fst (submit true (initial (Some (exerciseName n)))))
       = bool_decide (n = 5%nat).
Proof.
  intros n _.
  assert (Hnum : exerciseNumber (initial (Some (exerciseName n))) = Num (Z.of_nat n))
    by (apply exerciseNumber_exerciseName; reflexivity).
  split; [exact Hnum|].
  destruct (decide (n = 0%nat)) as [->|Hpos].
  - rewrite submit_correct_stay by (rewrite Hnum; reflexivity).
    repeat split; reflexivity.
  - rewrite (submit_correct_advance _ (Z.of_nat n) Hnum) by (cbn; lia).
    split; [reflexivity|]. cbn [snd fst advanced isModalOpen initial].
    destruct (decide (n = 5%nat)) as [->|Hne].
    + split; reflexivity.
    + destruct (Z.eqb_spec (Z.of_nat n) 5) as [Heq|_]; [lia|].
      rewrite bool_decide_eq_false_2 by exact Hne. split; reflexivity.
Qed.

Lemma exerciseName_number_witness :
  Z.of_nat 5 < 2 ^ 53
  /\ exerciseNumber (initial (Some (exerciseName 5))) = Num 5
  /\ snd (submit true (initial (Some (exerciseName 5))))
     = [OnComplete 5; LessonFinished].
Proof.
  assert (Hsafe : Z.of_nat 5 < 2 ^ 53) by (vm_compute; reflexivity).
  split; [exact Hsafe|].
  destruct (exerciseName_number 5 Hsafe) as (Hnum & _ & Hout & _).
  split; [exact Hnum | exact Hout].
Defined.

(* ===================================================================== *)
(** * Further properties of the exercise tracker *)
(* ===================================================================== *)

Section SessionFacts.

Implicit Types (v : View) (ev : Event) (evs : list Event).

Lemma final_cons ev evs v : final (ev :: evs) v = final evs (fst (step ev v)).
Proof. reflexivity. Qed.

Lemma all_signals_cons ev evs v :
  all_signals (run (ev :: evs) v)
  = (snd (step ev v) ++ all_signals (run evs (fst (step ev v))))%list.
Proof. rewrite run_cons. reflexivity. Qed.

Lemma notifications_app (out1 out2 : list Signal) :
  notifications (out1 ++ out2)%list
  = (notifications out1 ++ notifications out2)%list.
Proof. unfold notifications. apply omap_app. Qed.

(** What one event does to the state, event by event. *)
Lemma step_cases ev v :
  step ev v = (missed v, []) /\ ev = Submit false
  \/ step ev v = (cleared v, []) /\ ev = Submit true
  \/ (exists n, completedExerciseNumber v < n /\ exerciseNumber v = Num n
                /\ ev = Submit true
                /\ step ev v
                   = (advanced n v,
                      OnComplete n :: if n =? 5 then [LessonFinished] else []))
  \/ (exists reveal, ev = SolutionButtonClick reveal
                     /\ step ev v
                        = (mkView (exercise v) (code v) 0 reveal
                             (negb (showSolutionButton v))
                             (completedExerciseNumber v) (isModalOpen v), []))
  \/ (exists newCode, ev = EditorChange newCode
                      /\ step ev v
                         = (mkView (exercise v) (default "" newCode) (tries v)
                              (solutionViewer v) (showSolutionButton v)
                              (completedExerciseNumber v) (isModalOpen v), []))
  \/ ev = ModalClose
     /\ step ev v
        = (mkView (exercise v) (code v) (tries v) (solutionViewer v)
             (showSolutionButton v) (completedExerciseNumber v) false, [])
  \/ (exists exerciseProp, ev = NewProps exerciseProp
                           /\ step ev v
                              = (mkView (default "exercise1" exerciseProp) (code v)
                                   (tries v) (solutionViewer v)
                                   (showSolutionButton v)
                                   (completedExerciseNumber v) (isModalOpen v), [])).
Proof.
  destruct ev as [[|]|reveal|newCode| |exerciseProp].
  - fold (submit true v).
    destruct (submit_correct_cases v) as [(n & Hnum & Hlt & Heq) | [_ Heq]].
    + right. right. left. exists n. repeat split; assumption.
    + right. left. split; [exact Heq | reflexivity].
  - left. split; [apply submit_incorrect | reflexivity].
  - do 3 right. left. exists reveal. split; [reflexivity|].
    fold (toggleReveal reveal v). apply toggleReveal_eq.
  - do 4 right. left. exists newCode. split; [reflexivity|].
    unfold step. cbn. rewrite Z.eqb_refl. reflexivity.
  - do 5 right. left. split; [reflexivity|].
    unfold step. cbn. rewrite Z.eqb_refl. reflexivity.
  - do 6 right. exists exerciseProp. split; [reflexivity|].
    unfold step. cbn. rewrite Z.eqb_refl. reflexivity.
Qed.

(** What one event tells the parent. *)
Lemma step_notifications ev v :
  notifications (snd (step ev v)) = []
  /\ completedExerciseNumber (fst (step ev v)) = completedExerciseNumber v
  \/ exists n, notifications (snd (step ev v)) = [n]
               /\ exerciseNumber v = Num n
               /\ completedExerciseNumber v < n
               /\ completedExerciseNumber (fst (step ev v)) = n.
Proof.
  destruct (step_cases ev v)
    as [[Heq _] | [[Heq _] | [(n & Hlt & Hnum & _ & Heq)
       | [(reveal & _ & Heq) | [(newCode & _ & Heq)
       | [[_ Heq] | (exerciseProp & _ & Heq)]]]]]];
    rewrite Heq; try (left; split; reflexivity).
  right. exists n. cbn. destruct (n =? 5); repeat split; assumption.
Qed.

Lemma step_exercise ev v :
  is_NewProps ev = false -> exercise (fst (step ev v)) = exercise v.
Proof.
  intros Hfixed.
  destruct (step_cases ev v)
    as [[Heq _] | [[Heq _] | [(n & Hlt & Hnum & _ & Heq)
       | [(reveal & _ & Heq) | [(newCode & _ & Heq)
       | [[_ Heq] | (exerciseProp & -> & Heq)]]]]]];
    try discriminate Hfixed; rewrite Heq; reflexivity.
Qed.

(** The facts that every event keeps. *)
Lemma step_keeps_bounds ev v :
  0 <= tries v -> 0 <= completedExerciseNumber v ->
  (2 < tries v -> solutionViewer v = true) ->
  (isModalOpen v = true -> 5 <= completedExerciseNumber v) ->
  0 <= tries (fst (step ev v))
  /\ 0 <= completedExerciseNumber (fst (step ev v))
  /\ (2 < tries (fst (step ev v)) -> solutionViewer (fst (step ev v)) = true)
  /\ (isModalOpen (fst (step ev v)) = true
      -> 5 <= completedExerciseNumber (fst (step ev v))).
Proof.
  intros Htries Hcounter Hreveal Hdialog.
  destruct (step_cases ev v)
    as [[Heq _] | [[Heq _] | [(n & Hlt & Hnum & _ & Heq)
       | [(reveal & _ & Heq) | [(newCode & _ & Heq)
       | [[_ Heq] | (exerciseProp & _ & Heq)]]]]]];
    rewrite Heq; cbn; repeat split; try lia; try assumption;
    try (intros; discriminate).
  - destruct (Z.gtb_spec (tries v + 1) 2); [reflexivity | lia].
  - destruct (Z.eqb_spec n 5) as [->|Hne]; [lia|].
    intros Hopen. specialize (Hdialog Hopen). lia.
Qed.

Lemma final_keeps_bounds evs v :
  0 <= tries v -> 0 <= completedExerciseNumber v ->
  (2 < tries v -> solutionViewer v = true) ->
  (isModalOpen v = true -> 5 <= completedExerciseNumber v) ->
  0 <= tries (final evs v)
  /\ 0 <= completedExerciseNumber (final evs v)
  /\ (2 < tries (final evs v) -> solutionViewer (final evs v) = true)
  /\ (isModalOpen (final evs v) = true -> 5 <= completedExerciseNumber (final evs v)).
Proof.
  revert v. induction evs as [|ev rest IH]; intros v Htries Hcounter Hreveal Hdialog.
  - repeat split; assumption.
  - rewrite final_cons.
    destruct (step_keeps_bounds ev v Htries Hcounter Hreveal Hdialog)
      as (H1 & H2 & H3 & H4).
    apply IH; assumption.
Qed.

(** The numbers told to the parent from any state on. *)
Lemma notifications_from evs v :
  Forall (fun n => completedExerciseNumber v < n)
         (notifications (all_signals (run evs v)))
  /\ StronglySorted Z.lt (notifications (all_signals (run evs v)))
  /\ completedExerciseNumber (final evs v)
     = default (completedExerciseNumber v)
         (last (notifications (all_signals (run evs v)))).
Proof.
  revert v. induction evs as [|ev rest IH]; intros v.
  - repeat split; constructor.
  - rewrite all_signals_cons, notifications_app, final_cons.
    destruct (IH (fst (step ev v))) as (Habove & Hsorted & Hlast).
    destruct (step_notifications ev v)
      as [[-> Hsame] | (n & -> & _ & Hlt & Hnow)].
    + cbn [app]. rewrite <- Hsame. repeat split; assumption.
    + cbn [app]. rewrite Hnow in Habove, Hlast. split; [|split].
      * constructor; [exact Hlt|].
        eapply Forall_impl; [exact Habove|]. cbn. intros m Hm. lia.
      * constructor; [exact Hsorted | exact Habove].
      * rewrite Hlast, last_cons.
        destruct (last _); reflexivity.
Qed.

(** With the prop fixed, the parent is told at most once. *)
Lemma notifications_fixed_prop evs v :
  forallb (fun ev => negb (is_NewProps ev)) evs = true ->
  notifications (all_signals (run evs v)) = []
  \/ exists n, notifications (all_signals (run evs v)) = [n]
               /\ exerciseNumber v = Num n
               /\ completedExerciseNumber v < n.
Proof.
  revert v. induction evs as [|ev rest IH]; intros v Hfixed; [left; reflexivity|].
  cbn [forallb] in Hfixed. apply andb_true_iff in Hfixed as [Hev Hrest].
  apply negb_true_iff in Hev.
  rewrite all_signals_cons, notifications_app.
  pose proof (step_exercise ev v Hev) as Hexercise.
  assert (Hnumber : exerciseNumber (fst (step ev v)) = exerciseNumber v)
    by (unfold exerciseNumber; rewrite Hexercise; reflexivity).
  destruct (IH (fst (step ev v)) Hrest) as [Hnone | (m & Hone & Hm & Hlt')];
    destruct (step_notifications ev v)
      as [[-> Hsame] | (n & -> & Hnum & Hlt & Hnow)].
  - left. rewrite Hnone. reflexivity.
  - right. exists n. rewrite Hnone. repeat split; assumption.
  - right. exists m. rewrite Hone, <- Hnumber, <- Hsame. repeat split; assumption.
  - exfalso. rewrite Hnumber, Hnum in Hm. injection Hm as <-. lia.
Qed.

(** Beyond 5 with the dialog closed, no event opens it. *)
Lemma step_dialog_closed ev v :
  5 <= completedExerciseNumber v -> isModalOpen v = false ->
  isModalOpen (fst (step ev v)) = false.
Proof.
  intros Hge Hclosed.
  destruct (step_cases ev v)
    as [[Heq _] | [[Heq _] | [(n & Hlt & Hnum & _ & Heq)
       | [(reveal & _ & Heq) | [(newCode & _ & Heq)
       | [[_ Heq] | (exerciseProp & _ & Heq)]]]]]];
    rewrite Heq; cbn; try assumption; try reflexivity.
  destruct (Z.eqb_spec n 5) as [->|_]; [lia | exact Hclosed].
Qed.

(** While the solution is shown the reveal flag is set and no attempt is
    counted, as long as every event is one the view offers. *)
Lemma step_keeps_panel ev v :
  offers v ev = true ->
  (showSolutionButton v = true -> solutionViewer v = true /\ tries v = 0) ->
  showSolutionButton (fst (step ev v)) = true ->
  solutionViewer (fst (step ev v)) = true /\ tries (fst (step ev v)) = 0.
Proof.
  intros Hoffer Hpanel.
  destruct (step_cases ev v)
    as [[Heq ->] | [[Heq ->] | [(n & Hlt & Hnum & -> & Heq)
       | [(reveal & -> & Heq) | [(newCode & -> & Heq)
       | [[-> Heq] | (exerciseProp & -> & Heq)]]]]]];
    rewrite Heq; cbn; cbn in Hoffer; intros Hshown;
    try (rewrite Hshown in Hoffer; discriminate Hoffer);
    try (exact (Hpanel Hshown)).
  destruct reveal; [split; reflexivity|].
  rewrite Hoffer in Hshown. discriminate Hshown.
Qed.

End SessionFacts.

(** X9: after any events on a mounted component the attempt counter and
    the completion counter are not negative, an attempt counter above 2
    comes with the reveal flag set, and an open dialog comes with a
    completion counter of at least 5. *)
Theorem session_bounds :
  forall (exerciseProp : option string) (evs : list Event),
    0 <= tries (final evs (fst (mount exerciseProp)))
    /\ 0 <= completedExerciseNumber (final evs (fst (mount exerciseProp)))
    /\ (2 < tries (final evs (fst (mount exerciseProp)))
        -> solutionViewer (final evs (fst (mount exerciseProp))) = true)
    /\ (isModalOpen (final evs (fst (mount exerciseProp))) = true
        -> 5 <= completedExerciseNumber (final evs (fst (mount exerciseProp)))).
Proof.
  intros exerciseProp evs. apply final_keeps_bounds; cbn; try lia; discriminate.
Qed.

(** X10: the numbers passed to [onComplete] during a session are positive
    and strictly increasing, and the completion counter at the end is the
    last of them, or 0 when there was none. *)
Theorem onComplete_increasing :
  forall (exerciseProp : option string) (evs : list Event),
    Forall (fun n => 0 < n)
           (notifications (all_signals (session exerciseProp evs)))
    /\ StronglySorted Z.lt
         (notifications (all_signals (session exerciseProp evs)))
    /\ completedExerciseNumber (final evs (fst (mount exerciseProp)))
       = default 0 (last (notifications (all_signals (session exerciseProp evs)))).
Proof.
  intros exerciseProp evs. unfold session.
  exact (notifications_from evs (fst (mount exerciseProp))).
Qed.

(** X11: in a session in which the parent never changes the [exercise]
    prop, [onComplete] is called at most once, and then with the number of
    that exercise, which is positive. *)
Theorem onComplete_at_most_once :
  forall (exerciseProp : option string) (evs : list Event),
    forallb (fun ev => negb (is_NewProps ev)) evs = true ->
    notifications (all_signals (session exerciseProp evs)) = []
    \/ exists n, notifications (all_signals (session exerciseProp evs)) = [n]
                 /\ exerciseNumber (initial exerciseProp) = Num n
                 /\ 0 < n.
Proof.
  intros exerciseProp evs Hfixed. unfold session.
  exact (notifications_fixed_prop evs (fst (mount exerciseProp)) Hfixed).
Qed.

Lemma onComplete_at_most_once_witness :
  forallb (fun ev => negb (is_NewProps ev)) sample_events = true
  /\ (notifications (all_signals (session (Some "exercise5") sample_events)) = []
      \/ exists n,
           notifications (all_signals (session (Some "exercise5") sample_events)) = [n]
           /\ exerciseNumber (initial (Some "exercise5")) = Num n
           /\ 0 < n).
Proof.
  split; [reflexivity|].
  apply (onComplete_at_most_once (Some "exercise5") sample_events).
  reflexivity.
Defined.

(** X12: submitting a correct answer a second time changes nothing and
    signals nothing: [onComplete] is not called again and the dialog is not
    opened again. *)
Theorem correct_resubmission_silent :
  forall v : View,
    submit true (fst (submit true v)) = (fst (submit true v), []).
Proof.
  intros v.
  destruct (submit_correct_cases v) as [(n & Hnum & Hlt & Heq) | [Hle Heq]];
    rewrite Heq; cbn [fst].
  - rewrite submit_correct_stay.
    + reflexivity.
    + unfold exerciseNumber in *.
      cbn [advanced exercise completedExerciseNumber]. rewrite Hnum.
      cbn [number_gt]. destruct (Z.gtb_spec n n); [lia | reflexivity].
  - rewrite submit_correct_stay; [reflexivity | exact Hle].
Qed.

(** X13: once the completion counter is at 5 or more and the dialog is
    closed, no sequence of events opens the dialog again. *)
Theorem dialog_stays_closed :
  forall (v : View) (evs : list Event),
    5 <= completedExerciseNumber v ->
    isModalOpen v = false ->
    isModalOpen (final evs v) = false
    /\ total_firings (run evs v) = 0%nat.
Proof.
  intros v evs Hge Hclosed. split; [|apply total_firings_settled; exact Hge].
  revert v Hge Hclosed. induction evs as [|ev rest IH]; intros v Hge Hclosed;
    [exact Hclosed|].
  rewrite final_cons. apply IH.
  - pose proof (step_completed_mono ev v). lia.
  - apply step_dialog_closed; assumption.
Qed.

Lemma dialog_stays_closed_witness :
  5 <= completedExerciseNumber (final sample_events (fst (mount (Some "exercise5"))))
  /\ isModalOpen (final sample_events (fst (mount (Some "exercise5")))) = false
  /\ isModalOpen
       (final [Submit true; NewProps (Some "exercise6"); Submit true]
              (final sample_events (fst (mount (Some "exercise5"))))) = false
  /\ total_firings
       (run [Submit true; NewProps (Some "exercise6"); Submit true]
            (final sample_events (fst (mount (Some "exercise5"))))) = 0%nat.
Proof.
  split; [vm_compute; discriminate | split; [reflexivity|]].
  apply (dialog_stays_closed
           (final sample_events (fst (mount (Some "exercise5"))))
           [Submit true; NewProps (Some "exercise6"); Submit true]);
    [vm_compute; discriminate | reflexivity].
Defined.

(** X14: in a session made of events that the rendered view offers, the
    solution panel is shown only with the reveal flag set and the attempt
    counter at 0. *)
Theorem solution_panel_invariant :
  forall (exerciseProp : option string) (evs : list Event),
    feasible evs (fst (mount exerciseProp)) = true ->
    showSolutionButton (final evs (fst (mount exerciseProp))) = true ->
    solutionViewer (final evs (fst (mount exerciseProp))) = true
    /\ tries (final evs (fst (mount exerciseProp))) = 0.
Proof.
  intros exerciseProp evs.
  assert (Hstart : showSolutionButton (fst (mount exerciseProp)) = true ->
                   solutionViewer (fst (mount exerciseProp)) = true
                   /\ tries (fst (mount exerciseProp)) = 0)
    by (cbn; discriminate).
  revert Hstart. generalize (fst (mount exerciseProp)) as v.
  induction evs as [|ev rest IH]; intros v Hpanel Hfeasible; [exact Hpanel|].
  cbn [feasible] in Hfeasible. apply andb_true_iff in Hfeasible as [Hoffer Hrest].
  rewrite final_cons. apply IH; [|exact Hrest].
  apply step_keeps_panel; assumption.
Qed.

Lemma solution_panel_invariant_witness :
  feasible [Submit false; Submit false; Submit false; SolutionButtonClick true]
           (fst (mount None)) = true
  /\ showSolutionButton
       (final [Submit false; Submit false; Submit false; SolutionButtonClick true]
              (fst (mount None))) = true
  /\ solutionViewer
       (final [Submit false; Submit false; Submit false; SolutionButtonClick true]
              (fst (mount None))) = true
  /\ tries
       (final [Submit false; Submit false; Submit false; SolutionButtonClick true]
              (fst (mount None))) = 0.
Proof.
  split; [reflexivity | split; [reflexivity|]].
  apply (solution_panel_invariant None
           [Submit false; Submit false; Submit false; SolutionButtonClick true]);
    reflexivity.
Defined.

(** X15: after the learner has looked at the solution and gone back to the
    code, the Answers button is offered again after [n] further incorrect
    submissions exactly when [n] is at least 3. *)
Theorem answers_again_after_three_misses :
  forall (v : View) (n : nat),
    showSolutionButton v = true ->
    offers (final (replicate n (Submit false)) (fst (toggleReveal false v)))
           (SolutionButtonClick true) = true
    <-> (3 <= n)%nat.
Proof.
  intros v n Hshown. rewrite final_misses, toggleReveal_eq. cbn.
  rewrite Hshown. cbn.
  destruct (Z.ltb_spec 0 (Z.of_nat n)), (Z.gtb_spec (Z.of_nat n) 2); cbn;
    split; intros; try discriminate; try reflexivity; lia.
Qed.

Lemma answers_again_after_three_misses_witness :
  showSolutionButton
    (final [Submit false; Submit false; Submit false; SolutionButtonClick true]
           (fst (mount None))) = true
  /\ offers
       (final (replicate 3 (Submit false))
          (fst (toggleReveal false
             (final [Submit false; Submit false; Submit false; SolutionButtonClick true]
                    (fst (mount None))))))
       (SolutionButtonClick true) = true.
Proof.
  split; [reflexivity|].
  apply (answers_again_after_three_misses
           (final [Submit false; Submit false; Submit false; SolutionButtonClick true]
                  (fst (mount None))) 3);
    [reflexivity | lia].
Defined.

(* ===================================================================== *)
(** * Properties of Protocols *)
(* ===================================================================== *)

Section ProtocolsFacts.

Variables (Level Item : Type) (first_level : Level).

Abbreviation PState := (Protocols.State Level Item).
Abbreviation PEvent := (Protocols.Event Level Item).

Lemma protocols_run_from (evs : list PEvent) (st : PState) :
  Protocols.category _ (Protocols.searchParams _ _ (fold_left (Protocols.step _ _) evs st))
  = default (Protocols.category _ (Protocols.searchParams _ _ st))
      (last (Protocols.category_writes _ _ evs))
  /\ Protocols.network _ (Protocols.searchParams _ _ (fold_left (Protocols.step _ _) evs st))
     = default (Protocols.network _ (Protocols.searchParams _ _ st))
         (last (Protocols.network_writes _ _ evs))
  /\ Protocols.data _ _ (fold_left (Protocols.step _ _) evs st)
     = default (Protocols.data _ _ st) (last (Protocols.fetches _ _ evs))
  /\ Protocols.isLoading _ _ (fold_left (Protocols.step _ _) evs st)
     = Protocols.isLoading _ _ st
       && bool_decide (Protocols.fetches _ _ evs = []).
Proof.
  revert st. induction evs as [|ev rest IH]; intros st.
  - cbn. rewrite andb_true_r. repeat split; reflexivity.
  - cbn [fold_left]. destruct (IH (Protocols.step _ _ st ev)) as (Hc & Hn & Hd & Hl).
    rewrite Hc, Hn, Hd, Hl.
    destruct ev as [value|value|fetched]; cbn;
      rewrite ?last_cons; repeat split;
      try (destruct (last _); reflexivity).
    + fold (Protocols.network_writes Level Item rest).
      destruct (last (Protocols.network_writes Level Item rest)); reflexivity.
    + fold (Protocols.fetches Level Item rest).
      destruct (last (Protocols.fetches Level Item rest)); reflexivity.
    + rewrite andb_false_r. reflexivity.
Qed.

End ProtocolsFacts.

(** X16: the two filters are independent and the last write wins: after
    any events the category is the value of the last category change, or
    ["All categories"] when there was none, and the level is the value of
    the last level change, or the first level of the list when there was
    none, whatever else happened in between. *)
Theorem protocols_filters_last_write :
  forall (Level Item : Type) (first_level : Level)
         (evs : list (Protocols.Event Level Item)),
    Protocols.category _
      (Protocols.searchParams _ _ (Protocols.final _ _ first_level evs))
    = default "All categories" (last (Protocols.category_writes _ _ evs))
    /\ Protocols.network _
         (Protocols.searchParams _ _ (Protocols.final _ _ first_level evs))
       = default first_level (last (Protocols.network_writes _ _ evs)).
Proof.
  intros Level Item first_level evs. unfold Protocols.final.
  destruct (protocols_run_from Level Item evs (Protocols.initial _ _ first_level))
    as (Hc & Hn & _ & _).
  split; [exact Hc | exact Hn].
Qed.

(** X17: the component stays in the loading state until a fetch has
    resolved, whatever the filters do, and never goes back to it; the data
    are those of the last resolved fetch, or empty before. *)
Theorem protocols_loading_until_fetched :
  forall (Level Item : Type) (first_level : Level)
         (evs : list (Protocols.Event Level Item)),
    (Protocols.isLoading _ _ (Protocols.final _ _ first_level evs) = true
     <-> Protocols.fetches _ _ evs = [])
    /\ Protocols.data _ _ (Protocols.final _ _ first_level evs)
       = default [] (last (Protocols.fetches _ _ evs)).
Proof.
  intros Level Item first_level evs. unfold Protocols.final.
  destruct (protocols_run_from Level Item evs (Protocols.initial _ _ first_level))
    as (_ & _ & Hd & Hl).
  split; [|exact Hd].
  rewrite Hl. cbn. split.
  - intros Hloading. apply bool_decide_eq_true in Hloading. exact Hloading.
  - intros Hnone. apply bool_decide_eq_true. exact Hnone.
Qed.
